(** * Shallow embedding of the progression and settlement engine of rpg-todo-bot

    Sources: [src/database.py] (the SQLite store), [src/handlers.py]
    ([task_done], [shop_buy], [show_rewards], [reward_claim],
    [_calc_rewards], [_send_reminder]) and [src/main.py]
    ([_process_evening]).

    Modelling conventions.
    - SQLite INTEGER columns are [Z]; the 0/1 flag columns ([completed],
      [penalized], [shield_active], [pepper_mode], [claimed]) stay [Z] and
      Python's truthiness of such a value is [truthy].
    - A calendar date is its proleptic Gregorian ordinal
      ([date.toordinal()]).  The store keeps [created_date] as an ISO string
      and SQL compares those strings lexicographically, which for four-digit
      years is the order of the ordinals.
    - The store is a record of tables; a table is a list of rows in
      ascending primary-key order (AUTOINCREMENT appends), so a query with
      [ORDER BY id] is a [filter].
    - Every handler is a function from the store to the new store and the
      list of messages it sends (to the chat or as a callback answer).  An
      exception raised by Python before any write is [Raised]. *)

From Stdlib Require Import Ascii ZArith List String Bool QArith Lia.
Import ListNotations.
Open Scope Z_scope.

Definition truthy (z : Z) : bool := negb (z =? 0).

(** ** Rows *)

Record user := mk_user {
  user_id : Z;
  level : Z;
  xp : Z;
  hp : Z;
  points : Z;
  shield_active : Z;
  pepper_mode : Z;
  pepper_streak : Z;
  (** [TEXT DEFAULT '']: [None] is the empty string, [Some d] an ISO date *)
  last_perfect_date : option Z
}.

Record task := mk_task {
  task_id : Z;
  task_user_id : Z;
  title : string;
  task_type : string;
  reminder_time : string;
  completed : Z;
  created_date : Z;
  completed_at : string;
  penalized : Z
}.

Record reward := mk_reward {
  reward_id : Z;
  reward_user_id : Z;
  reward_title : string;
  cost : Z;
  claimed : Z;
  claimed_at : string
}.

Record store := mk_store {
  users : list user;
  tasks : list task;
  rewards : list reward
}.

(** ** The keyword arguments of [Database.update_user] *)

Inductive assign :=
| Set_level (v : Z)
| Set_xp (v : Z)
| Set_hp (v : Z)
| Set_points (v : Z)
| Set_shield_active (v : Z)
| Set_pepper_mode (v : Z)
| Set_pepper_streak (v : Z)
| Set_last_perfect_date (v : option Z).

Definition assign_one (u : user) (a : assign) : user :=
  match a with
  | Set_level v => {| user_id := user_id u; level := v; xp := xp u; hp := hp u;
      points := points u; shield_active := shield_active u;
      pepper_mode := pepper_mode u; pepper_streak := pepper_streak u;
      last_perfect_date := last_perfect_date u |}
  | Set_xp v => {| user_id := user_id u; level := level u; xp := v; hp := hp u;
      points := points u; shield_active := shield_active u;
      pepper_mode := pepper_mode u; pepper_streak := pepper_streak u;
      last_perfect_date := last_perfect_date u |}
  | Set_hp v => {| user_id := user_id u; level := level u; xp := xp u; hp := v;
      points := points u; shield_active := shield_active u;
      pepper_mode := pepper_mode u; pepper_streak := pepper_streak u;
      last_perfect_date := last_perfect_date u |}
  | Set_points v => {| user_id := user_id u; level := level u; xp := xp u;
      hp := hp u; points := v; shield_active := shield_active u;
      pepper_mode := pepper_mode u; pepper_streak := pepper_streak u;
      last_perfect_date := last_perfect_date u |}
  | Set_shield_active v => {| user_id := user_id u; level := level u;
      xp := xp u; hp := hp u; points := points u; shield_active := v;
      pepper_mode := pepper_mode u; pepper_streak := pepper_streak u;
      last_perfect_date := last_perfect_date u |}
  | Set_pepper_mode v => {| user_id := user_id u; level := level u;
      xp := xp u; hp := hp u; points := points u;
      shield_active := shield_active u; pepper_mode := v;
      pepper_streak := pepper_streak u;
      last_perfect_date := last_perfect_date u |}
  | Set_pepper_streak v => {| user_id := user_id u; level := level u;
      xp := xp u; hp := hp u; points := points u;
      shield_active := shield_active u; pepper_mode := pepper_mode u;
      pepper_streak := v; last_perfect_date := last_perfect_date u |}
  | Set_last_perfect_date v => {| user_id := user_id u; level := level u;
      xp := xp u; hp := hp u; points := points u;
      shield_active := shield_active u; pepper_mode := pepper_mode u;
      pepper_streak := pepper_streak u; last_perfect_date := v |}
  end.

(** [UPDATE users SET k1 = ?, ... WHERE user_id = ?] *)
Definition assign_all (u : user) (kw : list assign) : user :=
  fold_left assign_one kw u.

(** ** Database (database.py) *)

Module Database.

Definition get_user (s : store) (uid : Z) : option user :=
  find (fun u => user_id u =? uid) (users s).

Definition update_user (s : store) (uid : Z) (kw : list assign) : store :=
  match kw with
  | [] => s
  | _ => {| users := map (fun u => if user_id u =? uid then assign_all u kw else u)
                         (users s);
            tasks := tasks s; rewards := rewards s |}
  end.

Definition get_task (s : store) (tid : Z) : option task :=
  find (fun t => task_id t =? tid) (tasks s).

(** [SELECT * FROM tasks WHERE user_id = ? AND created_date = ? ORDER BY id] *)
Definition get_tasks_by_date (s : store) (uid d : Z) : list task :=
  filter (fun t => (task_user_id t =? uid) && (created_date t =? d)) (tasks s).

Definition set_completed (now : string) (t : task) : task :=
  {| task_id := task_id t; task_user_id := task_user_id t; title := title t;
     task_type := task_type t; reminder_time := reminder_time t;
     completed := 1; created_date := created_date t; completed_at := now;
     penalized := penalized t |}.

Definition complete_task (s : store) (tid : Z) (now : string) : store :=
  {| users := users s;
     tasks := map (fun t => if task_id t =? tid then set_completed now t else t)
                  (tasks s);
     rewards := rewards s |}.

Definition set_penalized (t : task) : task :=
  {| task_id := task_id t; task_user_id := task_user_id t; title := title t;
     task_type := task_type t; reminder_time := reminder_time t;
     completed := completed t; created_date := created_date t;
     completed_at := completed_at t; penalized := 1 |}.

(** [UPDATE tasks SET penalized = 1
     WHERE user_id = ? AND created_date = ? AND completed = 0] *)
Definition mark_tasks_penalized (s : store) (uid d : Z) : store :=
  {| users := users s;
     tasks := map (fun t => if (task_user_id t =? uid) && (created_date t =? d)
                                && (completed t =? 0)
                            then set_penalized t else t) (tasks s);
     rewards := rewards s |}.

Definition get_reward (s : store) (rid : Z) : option reward :=
  find (fun r => reward_id r =? rid) (rewards s).

Definition set_claimed (now : string) (r : reward) : reward :=
  {| reward_id := reward_id r; reward_user_id := reward_user_id r;
     reward_title := reward_title r; cost := cost r; claimed := 1;
     claimed_at := now |}.

Definition claim_reward (s : store) (rid : Z) (now : string) : store :=
  {| users := users s; tasks := tasks s;
     rewards := map (fun r => if reward_id r =? rid then set_claimed now r else r)
                    (rewards s) |}.

(** [get_week_completion_rate]: [week_ago = today - timedelta(days=7)],
    rows with [week_ago <= created_date <= today]; [done / total * 100]
    (a float in Python, a rational here), [0.0] when [total = 0]. *)
Definition week_tasks (s : store) (uid today : Z) : list task :=
  filter (fun t => (task_user_id t =? uid) && (today - 7 <=? created_date t)
                   && (created_date t <=? today)) (tasks s).

Definition get_week_completion_rate (s : store) (uid today : Z) : Q :=
  let ts := week_tasks s uid today in
  let total := Z.of_nat (List.length ts) in
  let done := Z.of_nat (List.length (filter (fun t => completed t =? 1) ts)) in
  if 0 <? total then (inject_Z done / inject_Z total * 100)%Q else 0%Q.

End Database.

(** ** What a handler sends *)

(** Callback answers ([cb.answer]) *)
Inductive answer :=
| A_TaskAlreadyDone                        (* "already done or not found" *)
| A_TaskDone
| A_NotEnoughPoints (price have : Z)       (* shop: not enough currency *)
| A_Bought
| A_RewardNotFound
| A_ConditionsNotMet                       (* reward: day or rate gate *)
| A_NotEnoughForReward (price : Z)         (* reward: not enough currency *)
| A_RewardReceived.

(** Chat messages ([bot.send_message], [bot.send_photo], [cb.message.answer]) *)
Inductive notice :=
| N_TaskDone (xp_g pts_g hp_g : Z) (level_up : bool)
| N_Reminder (tid : Z)
| N_Summary (done total : Z) (failed : list task)
            (hp_loss pts_loss new_hp new_streak : Z)
| N_ShieldBought (price new_pts : Z)
| N_PepperBought (price new_pts : Z)
| N_RewardClaimed (rid price : Z).

Inductive msg :=
| Answer (a : answer)
| Send (uid : Z) (n : notice).

Inductive result :=
| Ok (s : store) (out : list msg)
| Raised.

Import Database.

(** ** Handlers (handlers.py) *)

Module Handlers.

(** [_calc_rewards]: [int(xp * mult)] with [mult = 1.5] or [1.0]; the table
    values times 1.5 are exact binary floats, and [int] truncates toward
    zero, which is [Z.quot (x * 3) 2]. *)
Definition reward_table (task_type : string) : Z * Z * Z :=
  if String.eqb task_type "focus" then (50, 20, 0)
  else if String.eqb task_type "important" then (20, 10, 0)
  else if String.eqb task_type "wish" then (5, 2, 5)
  else (0, 0, 0).

Definition calc_rewards (task_type : string) (pepper : Z) : Z * Z * Z :=
  let '(xp, pts, hp) := reward_table task_type in
  if truthy pepper then (Z.quot (xp * 3) 2, Z.quot (pts * 3) 2, hp)
  else (xp, pts, hp).

(** The leveling loop of [task_done]:
    [while new_xp >= new_lvl * 100: new_xp -= new_lvl * 100; new_lvl += 1].
    [fuel] bounds the iterations; [level_up] gives it [xp + 1], enough for a
    level of at least 1 (each round takes at least 100 xp). *)
Fixpoint level_loop (fuel : nat) (new_xp new_lvl : Z) : Z * Z :=
  match fuel with
  | O => (new_xp, new_lvl)
  | S f =>
      if new_lvl * 100 <=? new_xp
      then level_loop f (new_xp - new_lvl * 100) (new_lvl + 1)
      else (new_xp, new_lvl)
  end.

Definition level_up (new_xp new_lvl : Z) : Z * Z :=
  level_loop (S (Z.to_nat new_xp)) new_xp new_lvl.

(** [task_done]: callback [tdone:<task_id>] pressed by user [uid]. *)
Definition task_done (s : store) (uid tid : Z) (now : string) : result :=
  match get_task s tid with
  | None => Ok s [Answer A_TaskAlreadyDone]
  | Some t =>
      if truthy (completed t) then Ok s [Answer A_TaskAlreadyDone] else
      match get_user s uid with
      | None => Raised                     (* user["pepper_mode"] on None *)
      | Some u =>
          let '(xp_g, pts_g, hp_g) := calc_rewards (task_type t) (pepper_mode u) in
          let '(new_xp, new_lvl) := level_up (xp u + xp_g) (level u) in
          let new_hp := Z.min 100 (hp u + hp_g) in
          let new_pts := points u + pts_g in
          let s1 := complete_task s tid now in
          let s2 := update_user s1 uid
                      [Set_xp new_xp; Set_level new_lvl; Set_hp new_hp;
                       Set_points new_pts] in
          Ok s2 [Send uid (N_TaskDone xp_g pts_g hp_g (level u <? new_lvl));
                 Answer A_TaskDone]
      end
  end.

(** [shop_buy]: callback [buy:<item>]; [prices.get(item, 0)]. *)
Definition price_of (item : string) : Z :=
  if String.eqb item "shield" then 50
  else if String.eqb item "pepper" then 100
  else 0.

Definition shop_buy (s : store) (uid : Z) (item : string) : result :=
  match get_user s uid with
  | None => Raised                         (* user["points"] on None *)
  | Some u =>
      let price := price_of item in
      if points u <? price then Ok s [Answer (A_NotEnoughPoints price (points u))]
      else
        let new_pts := points u - price in
        if String.eqb item "shield" then
          Ok (update_user s uid [Set_points new_pts; Set_shield_active 1])
             [Send uid (N_ShieldBought price new_pts); Answer A_Bought]
        else if String.eqb item "pepper" then
          Ok (update_user s uid [Set_points new_pts; Set_pepper_mode 1])
             [Send uid (N_PepperBought price new_pts); Answer A_Bought]
        else Ok s [Answer A_Bought]
  end.

(** [date.weekday()] is [(toordinal() + 6) % 7]; Sunday is 6. *)
Definition weekday (d : Z) : Z := (d + 6) mod 7.

(** [show_rewards]: [can_claim = is_sun and rate > 80]. *)
Definition can_claim (s : store) (uid today : Z) : bool :=
  let is_sun := weekday today =? 6 in
  let rate := get_week_completion_rate s uid today in
  is_sun && negb (Qle_bool rate 80).

(** [reward_claim]: callback [rclaim:<reward_id>]. *)
Definition reward_claim (s : store) (uid rid today : Z) (now : string) : result :=
  match get_reward s rid with
  | None => Ok s [Answer A_RewardNotFound]
  | Some r =>
      let user := get_user s uid in
      let is_sun := weekday today =? 6 in
      let rate := get_week_completion_rate s uid today in
      if negb is_sun || Qle_bool rate 80 then Ok s [Answer A_ConditionsNotMet]
      else
        match user with
        | None => Raised                   (* user["points"] on None *)
        | Some u =>
            if points u <? cost r then Ok s [Answer (A_NotEnoughForReward (cost r))]
            else
              let s1 := update_user s uid [Set_points (points u - cost r)] in
              let s2 := claim_reward s1 rid now in
              Ok s2 [Send uid (N_RewardClaimed rid (cost r)); Answer A_RewardReceived]
        end
  end.

(** [_send_reminder]: run by the scheduler; reads the task, writes nothing.
    Exceptions are caught and logged, so it never raises. *)
Definition send_reminder (s : store) (uid tid : Z) : result :=
  match get_task s tid with
  | None => Ok s []
  | Some t => if truthy (completed t) then Ok s [] else Ok s [Send uid (N_Reminder tid)]
  end.

End Handlers.

(** ** Evening settlement (main.py) *)

Module Main.

(** [penalty_table.get(t["task_type"], (0, 0))] *)
Definition penalty_of (task_type : string) : Z * Z :=
  if String.eqb task_type "focus" then (20, 5)
  else if String.eqb task_type "important" then (10, 3)
  else if String.eqb task_type "wish" then (0, 2)
  else (0, 0).

(** The loop [for t in failed:] with its accumulators and the local
    [shield] flag; returns [(total_hp_loss, total_pts_loss, shield)]. *)
Fixpoint penalty_loop (failed : list task) (shield : bool)
    (total_hp_loss total_pts_loss : Z) : Z * Z * bool :=
  match failed with
  | [] => (total_hp_loss, total_pts_loss, shield)
  | t :: rest =>
      let '(hp_pen, pts_pen) := penalty_of (task_type t) in
      let '(hp_pen, shield) :=
        if shield && (0 <? hp_pen) then (0, false)   (* shield is one-use *)
        else (hp_pen, shield) in
      penalty_loop rest shield (total_hp_loss + hp_pen) (total_pts_loss + pts_pen)
  end.

Definition is_failed (t : task) : bool :=
  negb (truthy (completed t)) && negb (truthy (penalized t)).

(** [_process_evening(bot, db, uid, today)] *)
Definition process_evening (s : store) (uid today : Z) : result :=
  let ts := get_tasks_by_date s uid today in
  match ts with
  | [] => Ok s []
  | _ :: _ =>
  match get_user s uid with
  | None => Ok s []
  | Some u =>
      let total := Z.of_nat (List.length ts) in
      let done := Z.of_nat (List.length (filter (fun t => truthy (completed t)) ts)) in
      let failed := filter is_failed ts in
      let '(total_hp_loss, total_pts_loss, _) :=
        penalty_loop failed (truthy (shield_active u)) 0 0 in
      let new_hp := Z.max 0 (hp u - total_hp_loss) in
      let new_pts := Z.max 0 (points u - total_pts_loss) in
      let shield_now :=
        if truthy (shield_active u) && (0 <? total_hp_loss) then 0
        else shield_active u in
      let '(new_streak, new_pepper) :=
        if done =? total then
          let new_streak := pepper_streak u + 1 in
          (new_streak, if 3 <=? new_streak then 1 else pepper_mode u)
        else
          (* the conditional assignment is overwritten by [new_pepper = 0] *)
          (0, 0) in
      let s1 := update_user s uid
                  [Set_hp new_hp; Set_points new_pts;
                   Set_shield_active shield_now; Set_pepper_mode new_pepper;
                   Set_pepper_streak new_streak;
                   Set_last_perfect_date
                     (if done =? total then Some today else last_perfect_date u)] in
      let s2 := mark_tasks_penalized s1 uid today in
      Ok s2 [Send uid (N_Summary done total failed total_hp_loss total_pts_loss
                                 new_hp new_streak)]
  end
  end.

End Main.

Import Handlers Main.

(** ** More of the store (database.py) *)

Module DatabaseMore.

(** [create_user]: [INSERT OR IGNORE INTO users (user_id, username)]; the
    other columns take their [DEFAULT]s ([last_perfect_date] is [''],
    that is [None]). *)
Definition default_user (uid : Z) : user :=
  {| user_id := uid; level := 1; xp := 0; hp := 100; points := 0;
     shield_active := 0; pepper_mode := 0; pepper_streak := 0;
     last_perfect_date := None |}.

Definition create_user (s : store) (uid : Z) : store :=
  match get_user s uid with
  | Some _ => s
  | None => {| users := users s ++ [default_user uid]; tasks := tasks s;
               rewards := rewards s |}
  end.

(** The row [add_task] inserts; [tid] is the id AUTOINCREMENT gives it. *)
Definition new_task (tid uid : Z) (ttl ty : string) (rem : option string)
    (d : Z) : task :=
  {| task_id := tid; task_user_id := uid; title := ttl; task_type := ty;
     reminder_time := match rem with Some r => r | None => "" end;
     completed := 0; created_date := d; completed_at := ""; penalized := 0 |}.

Definition add_task (s : store) (tid uid : Z) (ttl ty : string)
    (rem : option string) (d : Z) : store :=
  {| users := users s; tasks := tasks s ++ [new_task tid uid ttl ty rem d];
     rewards := rewards s |}.

(** [DELETE FROM tasks WHERE id = ?] *)
Definition delete_task (s : store) (tid : Z) : store :=
  {| users := users s; tasks := filter (fun t => negb (task_id t =? tid)) (tasks s);
     rewards := rewards s |}.

Definition add_reward (s : store) (rid uid : Z) (ttl : string) (c : Z) : store :=
  {| users := users s; tasks := tasks s;
     rewards := rewards s ++ [{| reward_id := rid; reward_user_id := uid;
                                 reward_title := ttl; cost := c; claimed := 0;
                                 claimed_at := "" |}] |}.

(** [SELECT * FROM rewards WHERE user_id = ? AND claimed = 0 ORDER BY id] *)
Definition get_rewards (s : store) (uid : Z) : list reward :=
  filter (fun r => (reward_user_id r =? uid) && (claimed r =? 0)) (rewards s).

Definition delete_reward (s : store) (rid : Z) : store :=
  {| users := users s; tasks := tasks s;
     rewards := filter (fun r => negb (reward_id r =? rid)) (rewards s) |}.

(** The [whitelist] table: its [user_id] column (the primary key). *)
Definition whitelist := list Z.

(** [INSERT OR IGNORE INTO whitelist (user_id) VALUES (?)] *)
Definition add_to_whitelist (wl : whitelist) (uid : Z) : whitelist :=
  if existsb (Z.eqb uid) wl then wl else wl ++ [uid].

Definition remove_from_whitelist (wl : whitelist) (uid : Z) : whitelist :=
  filter (fun x => negb (x =? uid)) wl.

Definition is_whitelisted (wl : whitelist) (uid : Z) : bool :=
  existsb (Z.eqb uid) wl.

(** [SELECT user_id FROM whitelist] *)
Definition get_all_user_ids (wl : whitelist) : list Z := wl.

(** The [idea_categories] and [ideas] tables. *)
Record category := mk_category {
  cat_id : Z;
  cat_user_id : Z;
  cat_name : string;
  emoji : string
}.

Record idea := mk_idea {
  idea_id : Z;
  idea_user_id : Z;
  category_id : Z;
  idea_title : string;
  status : string
}.

Record idea_store := mk_idea_store {
  categories : list category;
  ideas : list idea
}.

Definition get_category (is : idea_store) (cid : Z) : option category :=
  find (fun c => cat_id c =? cid) (categories is).

(** Deletes the category's ideas, then the category. *)
Definition delete_category (is : idea_store) (cid : Z) : idea_store :=
  let is1 := {| categories := categories is;
                ideas := filter (fun i => negb (category_id i =? cid)) (ideas is) |} in
  {| categories := filter (fun c => negb (cat_id c =? cid)) (categories is1);
     ideas := ideas is1 |}.

Definition count_ideas_in_category (is : idea_store) (cid : Z) : Z :=
  Z.of_nat (List.length (filter (fun i => category_id i =? cid) (ideas is))).

Definition get_ideas_by_category (is : idea_store) (cid : Z) : list idea :=
  filter (fun i => category_id i =? cid) (ideas is).

(** [add_idea]: [status] takes its default ['new']. *)
Definition add_idea (is : idea_store) (iid uid cid : Z) (ttl : string) : idea_store :=
  {| categories := categories is;
     ideas := ideas is ++ [{| idea_id := iid; idea_user_id := uid; category_id := cid;
                              idea_title := ttl; status := "new" |}] |}.

Definition get_idea (is : idea_store) (iid : Z) : option idea :=
  find (fun i => idea_id i =? iid) (ideas is).

Definition set_status (st : string) (i : idea) : idea :=
  {| idea_id := idea_id i; idea_user_id := idea_user_id i;
     category_id := category_id i; idea_title := idea_title i; status := st |}.

Definition update_idea_status (is : idea_store) (iid : Z) (st : string) : idea_store :=
  {| categories := categories is;
     ideas := map (fun i => if idea_id i =? iid then set_status st i else i) (ideas is) |}.

End DatabaseMore.

Import DatabaseMore.

(** ** Text helpers (utils.py)

    A Python [str] is modelled as a [string] whose characters are the code
    points below 256 (Latin-1); [str.isspace], the regex classes [\s] and
    [\d] and [int] are written out for those code points. *)

Module Utils.

(** [str.isspace] and [\s]: [\t \n \v \f \r], [\x1c]..[\x1f], the space,
    [\x85] and [\xa0]. *)
Definition py_isspace (c : ascii) : bool :=
  let n := nat_of_ascii c in
  ((9 <=? n) && (n <=? 13))%nat || ((28 <=? n) && (n <=? 32))%nat
  || (n =? 133)%nat || (n =? 160)%nat.

Fixpoint lstrip (l : list ascii) : list ascii :=
  match l with
  | c :: r => if py_isspace c then lstrip r else l
  | [] => []
  end.

(** [str.strip()] *)
Definition strip (l : list ascii) : list ascii := rev (lstrip (rev (lstrip l))).

(** [\d]: the decimal digits below code point 256 are [0]..[9]. *)
Definition is_digit (c : ascii) : bool :=
  let n := nat_of_ascii c in ((48 <=? n) && (n <=? 57))%nat.

Definition digit_val (c : ascii) : Z := Z.of_nat (nat_of_ascii c) - 48.

(** [[\s:\.]] *)
Definition is_time_sep (c : ascii) : bool :=
  py_isspace c || Ascii.eqb c ":"%char || Ascii.eqb c "."%char.

(** [_TIME_RE.match] on a stripped text: [^(\d{1,2})[\s:\.](\d{2})$],
    with [int] of both groups.  A stripped text does not end in a newline,
    so [$] matches only at its end. *)
Definition time_match (l : list ascii) : option (Z * Z) :=
  match l with
  | [h; sep; m1; m2] =>
      if is_digit h && is_time_sep sep && is_digit m1 && is_digit m2
      then Some (digit_val h, 10 * digit_val m1 + digit_val m2) else None
  | [h1; h2; sep; m1; m2] =>
      if is_digit h1 && is_digit h2 && is_time_sep sep && is_digit m1
         && is_digit m2
      then Some (10 * digit_val h1 + digit_val h2, 10 * digit_val m1 + digit_val m2)
      else None
  | _ => None
  end.

Definition parse_time (text : string) : option (Z * Z) :=
  match time_match (strip (list_ascii_of_string text)) with
  | None => None
  | Some (hour, minute) =>
      if (0 <=? hour) && (hour <=? 23) && (0 <=? minute) && (minute <=? 59)
      then Some (hour, minute) else None
  end.

Definition digit_char (d : Z) : ascii := ascii_of_nat (Z.to_nat (48 + d)).

(** [f"{n:02d}"] for [0 <= n < 100] *)
Definition pad2 (n : Z) : list ascii := [digit_char (n / 10); digit_char (n mod 10)].

(** [rem_str = f"{hour:02d}:{minute:02d}"] of [task_add_reminder] *)
Definition rem_str (hour minute : Z) : string :=
  string_of_list_ascii (pad2 hour ++ ":"%char :: pad2 minute).

(** [_MD2_SPECIAL]: [_ * [ ] ( ) ~ ` > # + - = | { } . ! \] *)
Definition md2_special (c : ascii) : bool :=
  existsb (Ascii.eqb c) (list_ascii_of_string "_*[]()~`>#+-=|{}.!\").

Fixpoint escape_chars (l : list ascii) : list ascii :=
  match l with
  | [] => []
  | c :: r => if md2_special c then "\"%char :: c :: escape_chars r
              else c :: escape_chars r
  end.

(** [escape_md]: [None] gives [""]; otherwise every special character is
    prefixed with a backslash. *)
Definition escape_md (text : option string) : string :=
  match text with
  | None => ""
  | Some t => string_of_list_ascii (escape_chars (list_ascii_of_string t))
  end.

(** How Telegram reads MarkdownV2 text: a backslash makes the next
    character an ordinary one. *)
Fixpoint md2_text (l : list ascii) : list ascii :=
  match l with
  | [] => []
  | c :: r =>
      if Ascii.eqb c "\"%char then
        match r with [] => [c] | c' :: r' => c' :: md2_text r' end
      else c :: md2_text r
  end.

(** No special character of MarkdownV2 stands unescaped. *)
Fixpoint md2_no_bare (l : list ascii) : bool :=
  match l with
  | [] => true
  | c :: r =>
      if Ascii.eqb c "\"%char then
        match r with [] => false | _ :: r' => md2_no_bare r' end
      else negb (md2_special c) && md2_no_bare r
  end.

End Utils.

Import Utils.

(** ** Reminder jobs (APScheduler) *)

Module Scheduler.

(** A job [_send_reminder(bot, db, uid, task_id)] at today's
    [hour:minute]. *)
Record job := mk_job {
  job_uid : Z;
  job_tid : Z;
  job_hour : Z;
  job_minute : Z
}.

(** The job store as [(task id, job)] pairs: the job id [f"rem_{id}"] is
    determined by the task id. *)
Definition jobs := list (Z * job).

Definition lookup_job (js : jobs) (k : Z) : option job :=
  match find (fun p => fst p =? k) js with Some p => Some (snd p) | None => None end.

(** [add_job(..., id=f"rem_{k}", replace_existing=True)] *)
Definition add_job (js : jobs) (p : Z * job) : jobs :=
  if existsb (fun q => fst q =? fst p) js
  then map (fun q => if fst q =? fst p then p else q) js
  else js ++ [p].

(** [str.split(":")] *)
Fixpoint split_colon (l : list ascii) : list (list ascii) :=
  match l with
  | [] => [[]]
  | c :: r =>
      let parts := split_colon r in
      if Ascii.eqb c ":"%char then [] :: parts
      else match parts with
           | p :: ps => (c :: p) :: ps
           | [] => [[c]]
           end
  end.

(** [now] is today at [now_us] microseconds after midnight;
    [run_time = now.replace(hour=hour, minute=minute, second=0,
    microsecond=0)] is after [now] when its own count of microseconds is
    larger. *)
Definition run_time_after (hour minute now_us : Z) : bool :=
  now_us <? (hour * 3600 + minute * 60) * 1000000.

Section Restore.

(** Python's [int] on a string; [None] is its [ValueError]. *)
Variable py_int : list ascii -> option Z.

(** [parts = reminder_time.split(":"); int(parts[0]), int(parts[1])];
    [None] is the [ValueError] or [IndexError] the loop skips. *)
Definition parse_reminder (rt : string) : option (Z * Z) :=
  match split_colon (list_ascii_of_string rt) with
  | p0 :: rest =>
      match py_int p0 with
      | None => None
      | Some hour =>
          match rest with
          | p1 :: _ =>
              match py_int p1 with
              | None => None
              | Some minute => Some (hour, minute)
              end
          | [] => None
          end
      end
  | [] => None
  end.

(** One task of the loop of [restore_reminders].  [None]: [now.replace]
    raised [ValueError], which nothing catches; [Some None]: [continue] or
    a time already past; [Some (Some p)]: the [add_job] call. *)
Definition restore_task (now_us uid : Z) (t : task) : option (option (Z * job)) :=
  if truthy (completed t) || String.eqb (reminder_time t) "" then Some None else
  match parse_reminder (reminder_time t) with
  | None => Some None
  | Some (hour, minute) =>
      if (0 <=? hour) && (hour <=? 23) && (0 <=? minute) && (minute <=? 59) then
        if run_time_after hour minute now_us
        then Some (Some (task_id t, mk_job uid (task_id t) hour minute))
        else Some None
      else None
  end.

Fixpoint restore_tasks (now_us uid : Z) (ts : list task) (js : jobs) : option jobs :=
  match ts with
  | [] => Some js
  | t :: rest =>
      match restore_task now_us uid t with
      | None => None
      | Some None => restore_tasks now_us uid rest js
      | Some (Some p) => restore_tasks now_us uid rest (add_job js p)
      end
  end.

Fixpoint restore_users (s : store) (today now_us : Z) (uids : list Z) (js : jobs)
    : option jobs :=
  match uids with
  | [] => Some js
  | uid :: rest =>
      match restore_tasks now_us uid (get_tasks_by_date s uid today) js with
      | None => None
      | Some js1 => restore_users s today now_us rest js1
      end
  end.

(** [restore_reminders]: the job store it leaves, [None] when it raises. *)
Definition restore_reminders (s : store) (wl : whitelist) (today now_us : Z)
    (js : jobs) : option jobs :=
  restore_users s today now_us (get_all_user_ids wl) js.

End Restore.

End Scheduler.

Import Scheduler.

(** ** More handlers (handlers.py, main.py) *)

Module HandlersMore.

(** What these handlers send: a callback answer, or a chat message named by
    a key with the numbers it shows. *)
Inductive reply :=
| R_Answer (key : string)
| R_Chat (uid : Z) (key : string) (nums : list Z).

Inductive outcome :=
| Done (s : store) (out : list reply)
| Fails.

(** [reminder_done]: callback [remdone:<task_id>] pressed by [uid]. *)
Definition reminder_done (s : store) (uid tid : Z) (now : string) : outcome :=
  match get_task s tid with
  | None => Done s [R_Answer "already_done"]
  | Some t =>
      if truthy (completed t) then Done s [R_Answer "already_done"] else
      match get_user s uid with
      | None => Fails                       (* user["pepper_mode"] on None *)
      | Some u =>
          let '(xp_g, pts_g, hp_g) := calc_rewards (task_type t) (pepper_mode u) in
          let '(new_xp, new_lvl) := level_up (xp u + xp_g) (level u) in
          let new_hp := Z.min 100 (hp u + hp_g) in
          let new_pts := points u + pts_g in
          let s1 := complete_task s tid now in
          let s2 := update_user s1 uid
                      [Set_xp new_xp; Set_level new_lvl; Set_hp new_hp;
                       Set_points new_pts] in
          Done s2 [R_Chat uid "reminder_done" [xp_g; pts_g]; R_Answer "ok"]
      end
  end.

(** [task_delete]: callback [tdel:<task_id>]. *)
Definition task_delete (s : store) (uid tid : Z) : outcome :=
  match get_task s tid with
  | Some _ => Done (delete_task s tid) [R_Chat uid "task_deleted" []; R_Answer ""]
  | None => Done s [R_Answer ""]
  end.

(** [reward_del]: callback [rdel:<reward_id>]; no lookup first. *)
Definition reward_del (s : store) (uid rid : Z) : outcome :=
  Done (delete_reward s rid) [R_Chat uid "reward_deleted" []; R_Answer ""].

(** [_ensure_user] *)
Definition ensure_user (s : store) (uid : Z) : store * option user :=
  match get_user s uid with
  | Some u => (s, Some u)
  | None => let s1 := create_user s uid in (s1, get_user s1 uid)
  end.

(** [WhitelistMiddleware.__call__]: does the update reach the handler?
    [from] is [event_from_user]. *)
Definition middleware_passes (wl : whitelist) (admin_id : Z) (from : option Z) : bool :=
  match from with
  | None => true
  | Some uid => (uid =? admin_id) || is_whitelisted wl uid
  end.

(** [users_add_id] sent by [from] with the id [uid] it typed. *)
Definition users_add_id (wl : whitelist) (s : store) (admin_id from uid : Z)
    : whitelist * store :=
  if negb (from =? admin_id) then (wl, s)
  else (add_to_whitelist wl uid, create_user s uid).

(** [users_del]: callback [udel:<uid>] pressed by [from]. *)
Definition users_del (wl : whitelist) (admin_id from uid : Z) : whitelist :=
  if negb (from =? admin_id) then wl else remove_from_whitelist wl uid.

(** [STATUS_CYCLE.get(status, "new")] *)
Definition status_cycle (st : string) : string :=
  if String.eqb st "new" then "wip"
  else if String.eqb st "wip" then "done"
  else if String.eqb st "done" then "new"
  else "new".

(** [idea_cycle_status]: callback [istatus:<idea_id>]; the store after its
    one write (what follows only reads). *)
Definition idea_cycle_status (is : idea_store) (iid : Z) : idea_store :=
  match get_idea is iid with
  | None => is
  | Some i => update_idea_status is iid (status_cycle (status i))
  end.

(** [cat_delete]: callback [icatdel:<cat_id>]. *)
Definition cat_delete (is : idea_store) (cid : Z) : idea_store :=
  match get_category is cid with
  | Some _ => delete_category is cid
  | None => is
  end.


End HandlersMore.

Import HandlersMore.

(** ** Sample rows *)

Definition user0 (uid lvl x h pts sh pep streak : Z) : user :=
  {| user_id := uid; level := lvl; xp := x; hp := h; points := pts;
     shield_active := sh; pepper_mode := pep; pepper_streak := streak;
     last_perfect_date := None |}.

Definition task0 (tid uid : Z) (ty : string) (c d : Z) : task :=
  {| task_id := tid; task_user_id := uid; title := "t"; task_type := ty;
     reminder_time := ""; completed := c; created_date := d;
     completed_at := ""; penalized := 0 |}.

Definition store0 (us : list user) (ts : list task) : store :=
  {| users := us; tasks := ts; rewards := [] |}.

Definition result_user (r : result) (uid : Z) : option user :=
  match r with Ok s _ => get_user s uid | Raised => None end.

Definition result_store (r : result) : option store :=
  match r with Ok s _ => Some s | Raised => None end.

(** Settlement run again on the store left by a first run. *)
Definition then_evening (r : result) (uid today : Z) : result :=
  match r with Ok s _ => process_evening s uid today | Raised => Raised end.

(** The test [done == total] of [_process_evening] on the tasks of the day. *)
Definition perfect_day (s : store) (uid today : Z) : bool :=
  let ts := get_tasks_by_date s uid today in
  Z.of_nat (List.length (filter (fun t => truthy (completed t)) ts))
  =? Z.of_nat (List.length ts).

(** What [mark_tasks_penalized] does to one row of the day. *)
Definition penalize_if (t : task) : task :=
  if completed t =? 0 then set_penalized t else t.

(** The window the spec describes for [weeklyCompletionRate]: the trailing
    7 days inclusive of today, that is [today - 6 .. today]. *)
Definition spec_week_tasks (s : store) (uid today : Z) : list task :=
  filter (fun t => (task_user_id t =? uid) && (today - 6 <=? created_date t)
                   && (created_date t <=? today)) (tasks s).

Definition spec_weekly_completion_rate (s : store) (uid today : Z) : Q :=
  let ts := spec_week_tasks s uid today in
  let total := Z.of_nat (List.length ts) in
  let done := Z.of_nat (List.length (filter (fun t => completed t =? 1) ts)) in
  if 0 <? total then (inject_Z done / inject_Z total * 100)%Q else 0%Q.

Definition ok_store (r : result) : store :=
  match r with Ok s _ => s | Raised => {| users := []; tasks := []; rewards := [] |} end.

Definition ok_out (r : result) : list msg :=
  match r with Ok _ o => o | Raised => [] end.

(** ** Sample stores *)

(** 2024-01-07, a Sunday: [date(2024, 1, 7).toordinal() = 738892]. *)
Definition sunday : Z := 738892.

(** User 1 with an active shield and two open focus tasks today. *)
Definition ex_shield_two : store :=
  store0 [user0 1 1 0 100 0 1 0 0]
         [task0 1 1 "focus" 0 sunday; task0 2 1 "focus" 0 sunday].

(** The same user with a single open focus task. *)
Definition ex_shield_one : store :=
  store0 [user0 1 1 0 100 0 1 0 0] [task0 1 1 "focus" 0 sunday].

(** User 1 who completed every task of the day. *)
Definition ex_perfect : store :=
  store0 [user0 1 1 0 100 0 0 0 0]
         [task0 1 1 "focus" 1 sunday; task0 2 1 "wish" 1 sunday].

(** User 1 with one completed and one open task of the day. *)
Definition ex_mixed : store :=
  store0 [user0 1 1 0 100 30 0 1 2]
         [task0 1 1 "focus" 1 sunday; task0 2 1 "important" 0 sunday].

(** An open task seven days ago and a completed task today. *)
Definition ex_week : store :=
  store0 [user0 1 1 0 100 0 0 0 0]
         [task0 1 1 "focus" 0 (sunday - 7); task0 2 1 "focus" 1 sunday].

(** User 1 at level 1 with [xp] and one open focus task. *)
Definition ex_level (x : Z) : store :=
  store0 [user0 1 1 x 100 0 0 0 0] [task0 1 1 "focus" 0 sunday].

Definition reward1 : reward :=
  {| reward_id := 1; reward_user_id := 1; reward_title := "r";
     cost := 40; claimed := 0; claimed_at := "" |}.

(** User 1 with 60 points, one reward of cost 40 and a perfect week. *)
Definition ex_reward : store :=
  {| users := [user0 1 1 0 100 60 0 0 0];
     tasks := [task0 1 1 "focus" 1 sunday];
     rewards := [reward1] |}.

(** User 1 with 100 points and reward 1 (cost 40), a perfect week. *)
Definition ex_rich : store :=
  {| users := [user0 1 1 0 100 100 0 0 0];
     tasks := [task0 1 1 "focus" 1 sunday];
     rewards := [reward1] |}.

(** ** Invariants and summaries *)

(** What the column defaults give a user row and every handler keeps. *)
Definition user_ok (u : user) : Prop :=
  1 <= level u /\ 0 <= xp u < level u * 100 /\ 0 <= hp u <= 100 /\ 0 <= points u.

Definition store_ok (s : store) : Prop := Forall user_ok (users s).

Definition outcome_store (o : outcome) : option store :=
  match o with Done s _ => Some s | Fails => None end.

(** The HP and points penalties of a list of failed tasks. *)
Definition hp_penalties (ts : list task) : list Z :=
  map (fun t => fst (penalty_of (task_type t))) ts.

Definition pts_penalties (ts : list task) : list Z :=
  map (fun t => snd (penalty_of (task_type t))) ts.

Definition sum_Z (l : list Z) : Z := fold_right Z.add 0 l.

Fixpoint first_positive (l : list Z) : Z :=
  match l with
  | [] => 0
  | x :: r => if 0 <? x then x else first_positive r
  end.

(** Python's [int] on two-character strings of digits, [ValueError]
    otherwise: an [int] that agrees with Python's on [f"{n:02d}"]. *)
Definition int_two_digits (l : list ascii) : option Z :=
  match l with
  | [a; b] => if is_digit a && is_digit b then Some (10 * digit_val a + digit_val b)
              else None
  | _ => None
  end.

(** User 1 with a 09:30 reminder on an open task and a 21:00 reminder on a
    completed one, today. *)
Definition ex_reminders : store :=
  store0 [user0 1 1 0 100 0 0 0 0]
         [new_task 1 1 "a" "focus" (Some "09:30"%string) sunday;
          set_completed "" (new_task 2 1 "b" "wish" (Some "21:00"%string) sunday)].

(** Category 1 with ideas 1 ('new') and 2 ('done'); category 2 with idea 3. *)
Definition ex_ideas : idea_store :=
  {| categories := [mk_category 1 1 "c1" "e"; mk_category 2 1 "c2" "e"];
     ideas := [mk_idea 1 1 1 "i1" "new"; mk_idea 2 1 1 "i2" "done";
               mk_idea 3 1 2 "i3" "wip"] |}.

(** The [add_job] calls [restore_reminders] makes, in order ([None] when it
    raises); used to reason about the job store it leaves. *)
Fixpoint plan_tasks (py_int : list ascii -> option Z) (now_us uid : Z) (ts : list task)
    : option (list (Z * job)) :=
  match ts with
  | [] => Some []
  | t :: rest =>
      match restore_task py_int now_us uid t with
      | None => None
      | Some o =>
          match plan_tasks py_int now_us uid rest with
          | None => None
          | Some l => Some (match o with Some p => p :: l | None => l end)
          end
      end
  end.

Fixpoint plan_users (py_int : list ascii -> option Z) (s : store) (today now_us : Z)
    (uids : list Z) : option (list (Z * job)) :=
  match uids with
  | [] => Some []
  | uid :: rest =>
      match plan_tasks py_int now_us uid (get_tasks_by_date s uid today) with
      | None => None
      | Some l1 =>
          match plan_users py_int s today now_us rest with
          | None => None
          | Some l2 => Some (l1 ++ l2)
          end
      end
  end.

(** * Store lemmas *)

Section StoreFacts.

Lemma assign_all_user_id (u : user) (kw : list assign) :
  user_id (assign_all u kw) = user_id u.
Proof.
  unfold assign_all. revert u. induction kw as [|b l IHl]; intros v; [reflexivity|].
  cbn [fold_left]. rewrite IHl. destruct b; reflexivity.
Qed.

Lemma get_user_update_same (s : store) (uid : Z) (kw : list assign) :
  get_user (update_user s uid kw) uid = option_map (fun u => assign_all u kw) (get_user s uid).
Proof.
  unfold update_user, get_user.
  destruct kw as [|a kw].
  - destruct (find _ (users s)); reflexivity.
  - cbn [users]. induction (users s) as [|u us IH]; [reflexivity|].
    cbn [map find]. destruct (user_id u =? uid) eqn:E.
    + rewrite assign_all_user_id, E. reflexivity.
    + rewrite E. exact IH.
Qed.

Lemma get_user_update_other (s : store) (uid id : Z) (kw : list assign) :
  id <> uid -> get_user (update_user s uid kw) id = get_user s id.
Proof.
  intros Hne. unfold update_user, get_user.
  destruct kw as [|a kw]; [reflexivity|].
  cbn [users]. induction (users s) as [|u us IH]; [reflexivity|].
  cbn [map find]. destruct (user_id u =? uid) eqn:E.
  - rewrite assign_all_user_id.
    assert ((user_id u =? id) = false) as ->.
    { apply Z.eqb_eq in E. apply Z.eqb_neq. lia. }
    exact IH.
  - rewrite IH. reflexivity.
Qed.

Lemma tasks_update (s : store) (uid : Z) (kw : list assign) :
  tasks (update_user s uid kw) = tasks s.
Proof. destruct kw; reflexivity. Qed.

Lemma rewards_update (s : store) (uid : Z) (kw : list assign) :
  rewards (update_user s uid kw) = rewards s.
Proof. destruct kw; reflexivity. Qed.

Lemma get_tasks_by_date_mark (s : store) (uid d : Z) :
  get_tasks_by_date (mark_tasks_penalized s uid d) uid d
  = map penalize_if (get_tasks_by_date s uid d).
Proof.
  unfold get_tasks_by_date, mark_tasks_penalized. cbn [tasks].
  induction (tasks s) as [|t ts IH]; [reflexivity|].
  cbn [map filter].
  destruct ((task_user_id t =? uid) && (created_date t =? d)) eqn:E.
  - cbn [andb]. cbn [map]. rewrite <- IH.
    unfold penalize_if at 1.
    destruct (completed t =? 0); cbn [filter task_user_id created_date set_penalized];
      rewrite E; reflexivity.
  - cbn [andb]. rewrite E. exact IH.
Qed.

Lemma no_failed_after_mark (ts : list task) :
  filter is_failed (map penalize_if ts) = [].
Proof.
  induction ts as [|t ts IH]; [reflexivity|].
  cbn [map filter]. rewrite IH. unfold penalize_if, is_failed, truthy.
  destruct (completed t =? 0) eqn:E; cbn; rewrite ?E; destruct (completed t =? 0); reflexivity.
Qed.

Lemma done_count_mark (ts : list task) :
  List.length (filter (fun t => truthy (completed t)) (map penalize_if ts))
  = List.length (filter (fun t => truthy (completed t)) ts).
Proof.
  induction ts as [|t ts IH]; [reflexivity|].
  cbn [map filter]. unfold penalize_if at 1.
  destruct (completed t =? 0); cbn [completed set_penalized];
    destruct (truthy (completed t)); cbn [List.length]; rewrite IH; reflexivity.
Qed.

Lemma mark_tasks_idem (s : store) (uid d : Z) :
  tasks (mark_tasks_penalized (mark_tasks_penalized s uid d) uid d)
  = tasks (mark_tasks_penalized s uid d).
Proof.
  unfold mark_tasks_penalized. cbn [tasks].
  induction (tasks s) as [|t ts IH]; [reflexivity|].
  cbn [map]. rewrite IH.
  destruct ((task_user_id t =? uid) && (created_date t =? d) && (completed t =? 0)) eqn:E.
  - cbn [set_penalized task_user_id created_date completed]. rewrite E. reflexivity.
  - rewrite E. reflexivity.
Qed.

End StoreFacts.

(** * Settlement facts *)

Section Settlement.

Lemma Ok_inj (s s' : store) (o o' : list msg) : Ok s o = Ok s' o' -> s = s' /\ o = o'.
Proof. intros E. injection E. auto. Qed.

Lemma get_tasks_by_date_update (s : store) (uid id d : Z) (kw : list assign) :
  get_tasks_by_date (update_user s uid kw) id d = get_tasks_by_date s id d.
Proof. unfold get_tasks_by_date. rewrite tasks_update. reflexivity. Qed.

Lemma get_user_mark (s : store) (uid id d : Z) :
  get_user (mark_tasks_penalized s uid d) id = get_user s id.
Proof. reflexivity. Qed.

(** The first run, when it does something: the store it leaves. *)
Lemma evening_first_run (s s1 : store) (uid today : Z) (out1 : list msg) (u : user) :
  get_user s uid = Some u ->
  process_evening s uid today = Ok s1 out1 ->
  (get_tasks_by_date s uid today = [] /\ s1 = s /\ out1 = [])
  \/ (get_tasks_by_date s uid today <> [] /\
      exists kw, s1 = mark_tasks_penalized (update_user s uid kw) uid today /\
      forall u1, get_user s1 uid = Some u1 ->
        0 <= hp u1 /\ 0 <= points u1 /\
        (if perfect_day s uid today then last_perfect_date u1 = Some today
         else pepper_streak u1 = 0 /\ pepper_mode u1 = 0)).
Proof.
  intros Hu H. unfold process_evening in H.
  destruct (get_tasks_by_date s uid today) as [|t0 ts0] eqn:Ets.
  - left. injection H as <- <-. auto.
  - right. split; [discriminate|]. rewrite Hu in H.
    destruct (penalty_loop _ _ _ _) as [[hl pl] sh] eqn:Epl.
    unfold perfect_day. cbv zeta. rewrite Ets.
    destruct (Z.of_nat (List.length (filter _ (t0 :: ts0)))
              =? Z.of_nat (List.length (t0 :: ts0)));
    cbv beta iota zeta in H;
    apply Ok_inj in H as [<- <-]; eexists; split; try reflexivity;
      intros u1 Hu1; rewrite get_user_mark, get_user_update_same, Hu in Hu1;
      injection Hu1 as <-; cbn; repeat split; try reflexivity; lia.
Qed.

Lemma tasks_mark_update (x : store) (uid d : Z) (kw : list assign) :
  tasks (mark_tasks_penalized (update_user x uid kw) uid d)
  = tasks (mark_tasks_penalized x uid d).
Proof. destruct kw; reflexivity. Qed.

Lemma penalize_if_incomplete (t : task) :
  completed (penalize_if t) = 0 -> penalized (penalize_if t) = 1.
Proof.
  unfold penalize_if. destruct (completed t =? 0) eqn:E; [reflexivity|].
  intros H. apply Z.eqb_neq in E. contradiction.
Qed.

(** A second run on the store left by a first run: no failed task, no loss,
    and the user record changes at most in [pepper_streak] and [pepper_mode]. *)
Lemma evening_rerun (s s1 : store) (uid today : Z) (out1 : list msg) (u : user) :
  get_user s uid = Some u ->
  process_evening s uid today = Ok s1 out1 ->
  exists s2 out2 u1 u2,
    process_evening s1 uid today = Ok s2 out2 /\
    get_user s1 uid = Some u1 /\ get_user s2 uid = Some u2 /\
    tasks s2 = tasks s1 /\ rewards s2 = rewards s1 /\
    (forall id, id <> uid -> get_user s2 id = get_user s1 id) /\
    (forall t, In t (get_tasks_by_date s1 uid today) -> completed t = 0 -> penalized t = 1) /\
    filter is_failed (get_tasks_by_date s1 uid today) = [] /\
    (forall m, In m out2 -> exists d tot nh ns,
        m = Send uid (N_Summary d tot [] 0 0 nh ns)) /\
    user_id u2 = user_id u1 /\ level u2 = level u1 /\ xp u2 = xp u1 /\
    hp u2 = hp u1 /\ points u2 = points u1 /\
    shield_active u2 = shield_active u1 /\
    last_perfect_date u2 = last_perfect_date u1 /\
    (if perfect_day s1 uid today && (0 <? Z.of_nat (List.length (get_tasks_by_date s1 uid today)))
     then pepper_streak u2 = pepper_streak u1 + 1 /\
          pepper_mode u2 = (if 3 <=? pepper_streak u1 + 1 then 1 else pepper_mode u1)
     else pepper_streak u2 = pepper_streak u1 /\ pepper_mode u2 = pepper_mode u1).
Proof.
  intros Hu H.
  destruct (evening_first_run s s1 uid today out1 u Hu H)
    as [[Ets [-> ->]] | [Ets [kw [Es1 Hnn]]]].
  - exists s, [], u, u. unfold process_evening. rewrite Ets.
    repeat split; auto; try (intros; contradiction).
    unfold perfect_day. rewrite Ets. cbn. auto.
  - assert (Hts1 : get_tasks_by_date s1 uid today
                   = map penalize_if (get_tasks_by_date s uid today)).
    { rewrite Es1, get_tasks_by_date_mark, get_tasks_by_date_update. reflexivity. }
    set (u1 := assign_all u kw).
    assert (Hu1 : get_user s1 uid = Some u1).
    { rewrite Es1, get_user_mark, get_user_update_same, Hu. reflexivity. }
    destruct (Hnn u1 Hu1) as [Hhp [Hpts Hfirst]]. clearbody u1. clear Hnn.
    assert (Hmark : forall t, In t (get_tasks_by_date s1 uid today) ->
                    completed t = 0 -> penalized t = 1).
    { intros t Ht. rewrite Hts1 in Ht. apply in_map_iff in Ht as [x [<- _]].
      apply penalize_if_incomplete. }
    assert (Hnf : filter is_failed (get_tasks_by_date s1 uid today) = []).
    { rewrite Hts1. apply no_failed_after_mark. }
    assert (Hdone : List.length (filter (fun t => truthy (completed t))
                                  (get_tasks_by_date s1 uid today))
                    = List.length (filter (fun t => truthy (completed t))
                                  (get_tasks_by_date s uid today))).
    { rewrite Hts1. apply done_count_mark. }
    assert (Hlen : List.length (get_tasks_by_date s1 uid today)
                   = List.length (get_tasks_by_date s uid today)).
    { rewrite Hts1. apply length_map. }
    assert (Hcond : (Z.of_nat (List.length (filter (fun t => truthy (completed t))
                                  (get_tasks_by_date s1 uid today)))
                     =? Z.of_nat (List.length (get_tasks_by_date s1 uid today)))
                    = perfect_day s uid today).
    { unfold perfect_day. rewrite Hdone, Hlen. reflexivity. }
    assert (Hp1 : perfect_day s1 uid today = perfect_day s uid today) by exact Hcond.
    assert (Hpos : (0 <? Z.of_nat (List.length (get_tasks_by_date s1 uid today))) = true).
    { rewrite Hlen. destruct (get_tasks_by_date s uid today); [contradiction|].
      cbn [List.length]. apply Z.ltb_lt. lia. }
    rewrite Hp1, Hpos, andb_true_r.
    destruct (get_tasks_by_date s uid today) as [|t0 ts0]; [contradiction|].
    destruct (perfect_day s uid today) eqn:Ep.
    all: eexists _, _, u1, _; split;
      [ unfold process_evening; cbv zeta; rewrite Hcond, Hnf, Hts1;
        cbn [map]; cbv iota; rewrite Hu1; cbn [penalty_loop]; cbv iota;
        reflexivity | ].
    all: split; [exact Hu1|].
    all: split; [rewrite get_user_mark, get_user_update_same, Hu1; reflexivity|].
    all: split; [rewrite tasks_mark_update, Es1, mark_tasks_idem; reflexivity|].
    all: split; [destruct kw; reflexivity|].
    all: split; [intros id Hid; rewrite get_user_mark, get_user_update_other by exact Hid;
                 reflexivity|].
    all: split; [exact Hmark|]. all: split; [exact Hnf|].
    all: split; [intros m [<-|[]]; eexists _, _, _, _; reflexivity|].
    all: cbn; repeat split; try lia.
    all: rewrite ?andb_false_r; auto.
Qed.
End Settlement.

(** * Leveling, shop and reward facts *)

Section Progression.

Lemma level_loop_bound (f : nat) (x l : Z) :
  1 <= l -> 0 <= x -> x < 100 * Z.of_nat f ->
  0 <= fst (level_loop f x l) /\ fst (level_loop f x l) < snd (level_loop f x l) * 100
  /\ l <= snd (level_loop f x l).
Proof.
  revert x l. induction f as [|f IH]; intros x l Hl Hx Hf; [lia|].
  cbn [level_loop]. destruct (l * 100 <=? x) eqn:E.
  - apply Z.leb_le in E.
    destruct (IH (x - l * 100) (l + 1)) as (H1 & H2 & H3); [lia|lia|lia|].
    repeat split; lia.
  - apply Z.leb_gt in E. cbn [fst snd]. lia.
Qed.

Lemma level_up_bound (x l : Z) :
  1 <= l -> 0 <= x ->
  0 <= fst (level_up x l) /\ fst (level_up x l) < snd (level_up x l) * 100
  /\ l <= snd (level_up x l).
Proof.
  intros Hl Hx. unfold level_up. apply level_loop_bound; [lia|lia|].
  rewrite Nat2Z.inj_succ, Z2Nat.id by lia. lia.
Qed.

Lemma calc_rewards_nonneg (ty : string) (pepper : Z) :
  0 <= fst (fst (calc_rewards ty pepper)).
Proof.
  unfold calc_rewards, reward_table.
  repeat match goal with |- context [if ?c then _ else _] => destruct c end;
    cbn; lia.
Qed.

Lemma Qle_bool_false (x y : Q) : Qle_bool x y = false <-> (y < x)%Q.
Proof.
  split.
  - intros H. apply Qnot_le_lt. intros Hle. apply Qle_bool_iff in Hle. congruence.
  - intros H. destruct (Qle_bool x y) eqn:E; [|reflexivity].
    apply Qle_bool_iff in E. exfalso. apply (Qlt_not_le y x); assumption.
Qed.

End Progression.

(** * The claims *)

Section Claims.

(** C1 (shield).  On a user with [shield_active = 1], hp 100 and one open
    focus task, the loop nullifies the task's 20 HP ([shield = False] in the
    loop), but the persisted flag is computed from [total_hp_loss > 0], which
    is 0, so [shield_active] stays 1: the shield nullified a loss and is kept.
    With two open focus tasks the flag is cleared and hp ends at 80. *)
Theorem evening_shield_kept_after_nullifying :
  penalty_loop (filter is_failed (get_tasks_by_date ex_shield_one 1 sunday)) true 0 0
    = (0, 5, false) /\
  result_user (process_evening ex_shield_one 1 sunday) 1
    = Some (user0 1 1 0 100 0 1 0 0) /\
  result_user (process_evening ex_shield_two 1 sunday) 1
    = Some (user0 1 1 0 80 0 0 0 0).
Proof. split; [|split]; reflexivity. Qed.

(** C3 (weekly rate).  [get_week_completion_rate] counts the tasks dated
    [today - 7 .. today], eight days: with an open task seven days ago and a
    completed task today it returns 50, where the trailing seven days
    inclusive of today hold only the completed task, rate 100. *)
Theorem week_rate_counts_eight_days :
  (get_week_completion_rate ex_week 1 sunday == 50)%Q /\
  (spec_weekly_completion_rate ex_week 1 sunday == 100)%Q /\
  ~ (get_week_completion_rate ex_week 1 sunday
     == spec_weekly_completion_rate ex_week 1 sunday)%Q.
Proof.
  split; [|split].
  - reflexivity.
  - reflexivity.
  - vm_compute. discriminate.
Qed.

(** C6 (rewards).  [_calc_rewards] returns the base table
    focus (50, 20, 0), important (20, 10, 0), wish (5, 2, 5); with pepper
    mode xp and points are multiplied by 1.5 and truncated (wish: 7.5 -> 7,
    3.0 -> 3) and the heal is unchanged. *)
Theorem calc_rewards_fixed_table (pepper : Z) :
  calc_rewards "focus" pepper
    = (if truthy pepper then (75, 30, 0) else (50, 20, 0)) /\
  calc_rewards "important" pepper
    = (if truthy pepper then (30, 15, 0) else (20, 10, 0)) /\
  calc_rewards "wish" pepper
    = (if truthy pepper then (7, 3, 5) else (5, 2, 5)).
Proof. unfold calc_rewards. destruct (truthy pepper); repeat split. Qed.

(** C10 (frame).  Every settlement run leaves the store and returns, and the
    user table keeps every user's id, level and xp. *)
Theorem evening_keeps_level_xp (s : store) (uid today : Z) :
  exists s1 out1, process_evening s uid today = Ok s1 out1 /\
    map (fun u => (user_id u, level u, xp u)) (users s1)
    = map (fun u => (user_id u, level u, xp u)) (users s).
Proof.
  unfold process_evening. cbv zeta.
  destruct (get_tasks_by_date s uid today) as [|t0 ts0];
    [exists s, []; split; reflexivity|].
  destruct (get_user s uid) as [u|]; [|exists s, []; split; reflexivity].
  destruct (penalty_loop _ _ _ _) as [[hl pl] sh].
  destruct (Z.of_nat (List.length (filter _ (t0 :: ts0)))
            =? Z.of_nat (List.length (t0 :: ts0)));
    cbv beta iota; eexists _, _; split; try reflexivity;
    cbn [users mark_tasks_penalized update_user];
    rewrite map_map; apply map_ext; intros v;
    destruct (user_id v =? uid); reflexivity.
Qed.

(** C5 (streak).  On a run for a user with tasks on the day: when
    [done == total] the streak grows by one and pepper mode becomes 1 once the
    new streak is at least 3 (else keeps its value); when [done < total] the
    streak and pepper mode both become 0, whatever pepper mode was before. *)
Theorem evening_streak (s s1 : store) (uid today : Z) (out1 : list msg) (u : user)
  (Hu : get_user s uid = Some u)
  (Hts : get_tasks_by_date s uid today <> [])
  (Hrun : process_evening s uid today = Ok s1 out1) :
  exists u1, get_user s1 uid = Some u1 /\
    let ts := get_tasks_by_date s uid today in
    let done := Z.of_nat (List.length (filter (fun t => truthy (completed t)) ts)) in
    let total := Z.of_nat (List.length ts) in
    (done = total ->
       pepper_streak u1 = pepper_streak u + 1 /\
       pepper_mode u1 = (if 3 <=? pepper_streak u + 1 then 1 else pepper_mode u)) /\
    (done < total -> pepper_streak u1 = 0 /\ pepper_mode u1 = 0).
Proof.
  unfold process_evening in Hrun. cbv zeta in *.
  destruct (get_tasks_by_date s uid today) as [|t0 ts0]; [contradiction|].
  rewrite Hu in Hrun.
  destruct (penalty_loop _ _ _ _) as [[hl pl] sh].
  destruct (Z.of_nat (List.length (filter _ (t0 :: ts0)))
            =? Z.of_nat (List.length (t0 :: ts0))) eqn:E;
    cbv beta iota in Hrun; apply Ok_inj in Hrun as [<- _];
    eexists; (split; [rewrite get_user_mark, get_user_update_same, Hu; reflexivity|]);
    unfold assign_all; cbn [fold_left assign_one pepper_streak pepper_mode].
  - apply Z.eqb_eq in E. split; [auto|]. intros; lia.
  - apply Z.eqb_neq in E. split; [intros; contradiction|auto].
Qed.

(** C4 (settlement twice).  After a first run on an existing user every
    task of the day with [completed = 0] has [penalized = 1]; the second run
    selects no failed task, its loop sums 0 and 0, its summary reports no
    failed task and no loss, and hp and points stay as the first run left
    them. *)
Theorem evening_twice_no_penalty (s s1 : store) (uid today : Z) (out1 : list msg)
  (u : user)
  (Hu : get_user s uid = Some u)
  (Hrun : process_evening s uid today = Ok s1 out1) :
  (forall t, In t (get_tasks_by_date s1 uid today) -> completed t = 0 -> penalized t = 1) /\
  filter is_failed (get_tasks_by_date s1 uid today) = [] /\
  (forall b, penalty_loop (filter is_failed (get_tasks_by_date s1 uid today)) b 0 0
             = (0, 0, b)) /\
  exists s2 out2 u1 u2,
    process_evening s1 uid today = Ok s2 out2 /\
    (forall m, In m out2 -> exists d tot nh ns,
        m = Send uid (N_Summary d tot [] 0 0 nh ns)) /\
    get_user s1 uid = Some u1 /\ get_user s2 uid = Some u2 /\
    hp u2 = hp u1 /\ points u2 = points u1.
Proof.
  destruct (evening_rerun s s1 uid today out1 u Hu Hrun)
    as (s2 & out2 & u1 & u2 & Hr & Hu1 & Hu2 & _ & _ & _ & Hmark & Hnf & Hout
        & _ & _ & _ & Hhp & Hpts & _).
  split; [exact Hmark|]. split; [exact Hnf|].
  split; [intros b; rewrite Hnf; reflexivity|].
  exists s2, out2, u1, u2. repeat split; assumption.
Qed.

(** C2, as stated, fails: on a day where every task is completed a second
    settlement run increments [pepper_streak] again (1 after the first run,
    2 after the second). *)
Lemma evening_rerun_bumps_streak :
  result_user (process_evening ex_perfect 1 sunday) 1
    = Some {| user_id := 1; level := 1; xp := 0; hp := 100; points := 0;
              shield_active := 0; pepper_mode := 0; pepper_streak := 1;
              last_perfect_date := Some sunday |} /\
  result_user (then_evening (process_evening ex_perfect 1 sunday) 1 sunday) 1
    = Some {| user_id := 1; level := 1; xp := 0; hp := 100; points := 0;
              shield_active := 0; pepper_mode := 0; pepper_streak := 2;
              last_perfect_date := Some sunday |}.
Proof. split; reflexivity. Qed.

(** C2 (amended).  Completing a task that is completed or missing, and a
    reminder for a completed or deleted task, leave the store as it is and
    grant or send nothing.  A second settlement run for the same user and
    date keeps every task row, the other users, and the user's level, xp,
    hp, points, shield_active and last_perfect_date; it keeps pepper_streak
    and pepper_mode too unless every task of the day is completed, in which
    case it increments pepper_streak again and sets pepper_mode to 1 once the
    new streak is at least 3. *)
Theorem reruns_guarded (s : store) (uid tid today : Z) (now : string) :
  (forall t, get_task s tid = Some t -> truthy (completed t) = true ->
     task_done s uid tid now = Ok s [Answer A_TaskAlreadyDone]) /\
  (get_task s tid = None -> task_done s uid tid now = Ok s [Answer A_TaskAlreadyDone]) /\
  ((get_task s tid = None \/
    exists t, get_task s tid = Some t /\ truthy (completed t) = true) ->
     send_reminder s uid tid = Ok s []) /\
  (forall u s1 out1, get_user s uid = Some u ->
     process_evening s uid today = Ok s1 out1 ->
     exists s2 out2 u1 u2,
       process_evening s1 uid today = Ok s2 out2 /\
       tasks s2 = tasks s1 /\ rewards s2 = rewards s1 /\
       (forall id, id <> uid -> get_user s2 id = get_user s1 id) /\
       get_user s1 uid = Some u1 /\ get_user s2 uid = Some u2 /\
       user_id u2 = user_id u1 /\ level u2 = level u1 /\ xp u2 = xp u1 /\
       hp u2 = hp u1 /\ points u2 = points u1 /\
       shield_active u2 = shield_active u1 /\
       last_perfect_date u2 = last_perfect_date u1 /\
       (if perfect_day s1 uid today
           && (0 <? Z.of_nat (List.length (get_tasks_by_date s1 uid today)))
        then pepper_streak u2 = pepper_streak u1 + 1 /\
             pepper_mode u2 = (if 3 <=? pepper_streak u1 + 1 then 1 else pepper_mode u1)
        else pepper_streak u2 = pepper_streak u1 /\ pepper_mode u2 = pepper_mode u1)).
Proof.
  split; [|split; [|split]].
  - intros t Ht Hc. unfold task_done. rewrite Ht, Hc. reflexivity.
  - intros Ht. unfold task_done. rewrite Ht. reflexivity.
  - intros [Ht | [t [Ht Hc]]]; unfold send_reminder; rewrite Ht; [reflexivity|].
    rewrite Hc. reflexivity.
  - intros u s1 out1 Hu Hrun.
    destruct (evening_rerun s s1 uid today out1 u Hu Hrun)
      as (s2 & out2 & u1 & u2 & Hr & Hu1 & Hu2 & Ht & Hrw & Hoth & _ & _ & _ & Hrest).
    exists s2, out2, u1, u2. repeat (split; [assumption|]). exact Hrest.
Qed.

(** C7 (leveling).  For a level of at least 1 and a non-negative xp, the
    leveling loop ends with [0 <= xp' < level' * 100] and [level' >= level]
    for every non-negative gain, and so does [task_done] on an open task;
    a user at level 1 with 80 xp completing a focus task ends at level 2
    with 30 xp, and one at 250 xp ends two levels up, at level 3 with 0 xp. *)
Theorem task_done_levels (s : store) (uid tid : Z) (now : string) (t : task) (u : user)
  (Ht : get_task s tid = Some t) (Hc : completed t = 0)
  (Hu : get_user s uid = Some u) (Hl : 1 <= level u) (Hx : 0 <= xp u) :
  (forall gain, 0 <= gain ->
     let r := level_up (xp u + gain) (level u) in
     0 <= fst r /\ fst r < snd r * 100 /\ level u <= snd r) /\
  (exists s' out u', task_done s uid tid now = Ok s' out /\
     get_user s' uid = Some u' /\
     0 <= xp u' /\ xp u' < level u' * 100 /\ level u <= level u') /\
  result_user (task_done (ex_level 80) 1 1 "") 1 = Some (user0 1 2 30 100 20 0 0 0) /\
  result_user (task_done (ex_level 250) 1 1 "") 1 = Some (user0 1 3 0 100 20 0 0 0).
Proof.
  split; [|split; [|split; reflexivity]].
  - intros gain Hg. cbv zeta. apply level_up_bound; lia.
  - unfold task_done. rewrite Ht. rewrite Hc. cbv [truthy negb Z.eqb]. rewrite Hu.
    pose proof (calc_rewards_nonneg (task_type t) (pepper_mode u)) as Hg.
    destruct (calc_rewards (task_type t) (pepper_mode u)) as [[xg pg] hg].
    cbn [fst] in Hg.
    pose proof (level_up_bound (xp u + xg) (level u) Hl ltac:(lia)) as Hb.
    destruct (level_up (xp u + xg) (level u)) as [nx nl]. cbn [fst snd] in Hb.
    eexists _, _, _. split; [reflexivity|].
    split; [rewrite get_user_update_same;
            change (get_user (complete_task s tid now) uid) with (get_user s uid);
            rewrite Hu; reflexivity|].
    cbn. lia.
Qed.

(** C8 (reward gate).  [can_claim] (in [show_rewards]) holds exactly on a
    Sunday with a weekly rate above 80; [reward_claim] re-checks the same
    two conditions, then the funds, before debiting the cost and marking the
    reward claimed. *)
Theorem claim_gate (s : store) (uid rid today : Z) (now : string) (r : reward) (u : user)
  (Hr : get_reward s rid = Some r) (Hu : get_user s uid = Some u) :
  (can_claim s uid today = true <->
     weekday today = 6 /\ (80 < get_week_completion_rate s uid today)%Q) /\
  reward_claim s uid rid today now =
    (if can_claim s uid today then
       if points u <? cost r then Ok s [Answer (A_NotEnoughForReward (cost r))]
       else Ok (claim_reward (update_user s uid [Set_points (points u - cost r)]) rid now)
               [Send uid (N_RewardClaimed rid (cost r)); Answer A_RewardReceived]
     else Ok s [Answer A_ConditionsNotMet]).
Proof.
  split.
  - unfold can_claim. cbv zeta.
    rewrite andb_true_iff, negb_true_iff, Z.eqb_eq, Qle_bool_false. reflexivity.
  - unfold reward_claim, can_claim. rewrite Hr. cbv zeta.
    destruct (weekday today =? 6); cbn [negb orb andb]; [|reflexivity].
    destruct (Qle_bool (get_week_completion_rate s uid today) 80); cbn [negb];
      [reflexivity|].
    rewrite Hu. reflexivity.
Qed.

(** C9 (shop).  For the shield (50) and the pepper potion (100): with fewer
    points than the price the purchase is refused with the price and the
    balance and the store is unchanged; otherwise the user's points drop by
    the price, the item's flag becomes 1 (pepper mode whatever the streak),
    and nothing else of the store changes. *)
Theorem shop_buy_spec (s : store) (uid : Z) (item : string) (u : user)
  (Hu : get_user s uid = Some u) (Hitem : item = "shield"%string \/ item = "pepper"%string) :
  price_of "shield" = 50 /\ price_of "pepper" = 100 /\
  (points u < price_of item ->
     shop_buy s uid item = Ok s [Answer (A_NotEnoughPoints (price_of item) (points u))]) /\
  (price_of item <= points u ->
     exists s' out, shop_buy s uid item = Ok s' out /\ In (Answer A_Bought) out /\
       get_user s' uid
         = Some {| user_id := user_id u; level := level u; xp := xp u; hp := hp u;
                   points := points u - price_of item;
                   shield_active := if String.eqb item "shield" then 1 else shield_active u;
                   pepper_mode := if String.eqb item "pepper" then 1 else pepper_mode u;
                   pepper_streak := pepper_streak u;
                   last_perfect_date := last_perfect_date u |} /\
       (forall id, id <> uid -> get_user s' id = get_user s id) /\
       tasks s' = tasks s /\ rewards s' = rewards s).
Proof.
  split; [reflexivity|]. split; [reflexivity|].
  destruct Hitem as [-> | ->]; split; intros Hp; unfold shop_buy; rewrite Hu; cbv zeta.
  - apply Z.ltb_lt in Hp. rewrite Hp. reflexivity.
  - apply Z.ltb_ge in Hp. rewrite Hp. cbn [String.eqb Ascii.eqb Bool.eqb].
    eexists _, _. split; [reflexivity|]. split; [right; left; reflexivity|].
    split; [rewrite get_user_update_same, Hu; reflexivity|].
    split; [intros id Hid; apply get_user_update_other; exact Hid|].
    split; reflexivity.
  - apply Z.ltb_lt in Hp. rewrite Hp. reflexivity.
  - apply Z.ltb_ge in Hp. rewrite Hp. cbn [String.eqb Ascii.eqb Bool.eqb].
    eexists _, _. split; [reflexivity|]. split; [right; left; reflexivity|].
    split; [rewrite get_user_update_same, Hu; reflexivity|].
    split; [intros id Hid; apply get_user_update_other; exact Hid|].
    split; reflexivity.
Qed.

(** ** Witnesses: the claims' theorems applied to sample stores *)

Lemma evening_streak_witness :
  get_user ex_perfect 1 = Some (user0 1 1 0 100 0 0 0 0) /\
  exists u1, get_user (ok_store (process_evening ex_perfect 1 sunday)) 1 = Some u1 /\
             pepper_streak u1 = 1.
Proof.
  split; [reflexivity|].
  destruct (evening_streak ex_perfect (ok_store (process_evening ex_perfect 1 sunday))
              1 sunday (ok_out (process_evening ex_perfect 1 sunday))
              (user0 1 1 0 100 0 0 0 0)
              ltac:(reflexivity) ltac:(discriminate) ltac:(reflexivity))
    as [u1 [Hu1 [Hdone _]]].
  exists u1. split; [exact Hu1|].
  destruct (Hdone ltac:(reflexivity)) as [Hs _]. rewrite Hs. reflexivity.
Defined.

Lemma evening_twice_no_penalty_witness :
  get_user ex_mixed 1 = Some (user0 1 1 0 100 30 0 1 2) /\
  filter is_failed (get_tasks_by_date (ok_store (process_evening ex_mixed 1 sunday)) 1 sunday)
    = [].
Proof.
  split; [reflexivity|].
  exact (proj1 (proj2 (evening_twice_no_penalty ex_mixed
           (ok_store (process_evening ex_mixed 1 sunday)) 1 sunday
           (ok_out (process_evening ex_mixed 1 sunday)) (user0 1 1 0 100 30 0 1 2)
           ltac:(reflexivity) ltac:(reflexivity)))).
Defined.

Lemma reruns_guarded_witness :
  get_task ex_mixed 1 = Some (task0 1 1 "focus" 1 sunday) /\
  send_reminder ex_mixed 1 1 = Ok ex_mixed [].
Proof.
  split; [reflexivity|].
  apply (proj1 (proj2 (proj2 (reruns_guarded ex_mixed 1 1 sunday "")))).
  right. exists (task0 1 1 "focus" 1 sunday). split; reflexivity.
Defined.

Lemma task_done_levels_witness :
  exists s' out u', task_done (ex_level 80) 1 1 "" = Ok s' out /\
    get_user s' 1 = Some u' /\ 0 <= xp u' /\ xp u' < level u' * 100 /\ 1 <= level u'.
Proof.
  exact (proj1 (proj2 (task_done_levels (ex_level 80) 1 1 "" (task0 1 1 "focus" 0 sunday)
           (user0 1 1 80 100 0 0 0 0) ltac:(reflexivity) ltac:(reflexivity)
           ltac:(reflexivity) ltac:(cbn; lia) ltac:(cbn; lia)))).
Defined.

Lemma claim_gate_witness :
  can_claim ex_reward 1 sunday = true /\
  weekday sunday = 6 /\ (80 < get_week_completion_rate ex_reward 1 sunday)%Q.
Proof.
  split; [reflexivity|].
  apply (proj1 (proj1 (claim_gate ex_reward 1 1 sunday "" reward1 (user0 1 1 0 100 60 0 0 0)
                         ltac:(reflexivity) ltac:(reflexivity)))).
  reflexivity.
Defined.

Lemma shop_buy_spec_witness :
  exists s' out, shop_buy ex_reward 1 "shield" = Ok s' out /\ In (Answer A_Bought) out.
Proof.
  destruct (proj2 (proj2 (proj2 (shop_buy_spec ex_reward 1 "shield"
              (user0 1 1 0 100 60 0 0 0) ltac:(reflexivity) (or_introl eq_refl))))
              ltac:(cbn; lia)) as (s' & out & H1 & H2 & _).
  exists s', out. split; assumption.
Defined.

End Claims.

(** * Further properties of the code *)

Section HandlerFacts.

Lemma get_user_in (s : store) (uid : Z) (u : user) :
  get_user s uid = Some u -> In u (users s).
Proof. unfold get_user. intros H. apply find_some in H. tauto. Qed.

Lemma store_ok_get (s : store) (uid : Z) (u : user) :
  store_ok s -> get_user s uid = Some u -> user_ok u.
Proof.
  intros Hs H. unfold store_ok in Hs. rewrite Forall_forall in Hs.
  apply Hs. eapply get_user_in. exact H.
Qed.

(** [update_user] keeps the invariant when the assignment keeps it on
    every row it rewrites. *)
Lemma store_ok_update (s : store) (uid : Z) (kw : list assign) :
  store_ok s ->
  (forall v, user_ok v -> user_ok (assign_all v kw)) ->
  store_ok (update_user s uid kw).
Proof.
  intros Hs Hkw. destruct kw as [|a kw]; [exact Hs|].
  unfold store_ok in *. cbn [users update_user].
  apply Forall_forall. intros x Hx. apply in_map_iff in Hx as (v & <- & Hv).
  rewrite Forall_forall in Hs. specialize (Hs v Hv).
  destruct (user_id v =? uid); [apply Hkw|]; exact Hs.
Qed.

Lemma calc_rewards_all_nonneg (ty : string) (pepper : Z) :
  0 <= fst (fst (calc_rewards ty pepper)) /\ 0 <= snd (fst (calc_rewards ty pepper))
  /\ 0 <= snd (calc_rewards ty pepper).
Proof.
  unfold calc_rewards, reward_table.
  repeat match goal with |- context [if ?c then _ else _] => destruct c end;
    cbn; lia.
Qed.

Lemma get_user_claim (s : store) (rid id : Z) (now : string) :
  get_user (claim_reward s rid now) id = get_user s id.
Proof. reflexivity. Qed.

Lemma get_reward_update (s : store) (uid rid : Z) (kw : list assign) :
  get_reward (update_user s uid kw) rid = get_reward s rid.
Proof. unfold get_reward. rewrite rewards_update. reflexivity. Qed.

Lemma get_reward_claim (s : store) (rid : Z) (now : string) :
  get_reward (claim_reward s rid now) rid = option_map (set_claimed now) (get_reward s rid).
Proof.
  unfold get_reward, claim_reward. cbn [rewards].
  induction (rewards s) as [|r rs IH]; [reflexivity|].
  cbn [map find]. destruct (reward_id r =? rid) eqn:E.
  - cbn [set_claimed reward_id]. rewrite E. reflexivity.
  - rewrite E. exact IH.
Qed.

Lemma week_rate_tasks (a b : store) (uid today : Z) :
  tasks a = tasks b ->
  get_week_completion_rate a uid today = get_week_completion_rate b uid today.
Proof. intros E. unfold get_week_completion_rate, week_tasks. rewrite E. reflexivity. Qed.

Lemma get_task_complete (s : store) (tid : Z) (now : string) :
  get_task (complete_task s tid now) tid = option_map (set_completed now) (get_task s tid).
Proof.
  unfold get_task, complete_task. cbn [tasks].
  induction (tasks s) as [|t ts IH]; [reflexivity|].
  cbn [map find]. destruct (task_id t =? tid) eqn:E.
  - cbn [set_completed task_id]. rewrite E. reflexivity.
  - rewrite E. exact IH.
Qed.

Lemma get_task_update (s : store) (uid tid : Z) (kw : list assign) :
  get_task (update_user s uid kw) tid = get_task s tid.
Proof. unfold get_task. rewrite tasks_update. reflexivity. Qed.

(** X1 *)
(** [task_done] keeps every user row within its bounds: level at least 1,
    [0 <= xp < level * 100], [0 <= hp <= 100], [points >= 0]. *)
Theorem task_done_store_ok (s s1 : store) (uid tid : Z) (now : string) (out : list msg) :
  store_ok s -> task_done s uid tid now = Ok s1 out -> store_ok s1.
Proof.
  intros Hs H. unfold task_done in H.
  destruct (get_task s tid) as [t|]; [|apply Ok_inj in H as [<- _]; exact Hs].
  destruct (truthy (completed t)); [apply Ok_inj in H as [<- _]; exact Hs|].
  destruct (get_user s uid) as [u|] eqn:Hu; [|discriminate].
  pose proof (store_ok_get _ _ _ Hs Hu) as (Hl & Hx & Hh & Hp).
  pose proof (calc_rewards_all_nonneg (task_type t) (pepper_mode u)) as Hc.
  destruct (calc_rewards (task_type t) (pepper_mode u)) as [[xg pg] hg].
  cbn [fst snd] in Hc.
  pose proof (level_up_bound (xp u + xg) (level u)) as Hlv.
  destruct (level_up (xp u + xg) (level u)) as [nx nl]. cbn [fst snd] in Hlv.
  cbv beta iota zeta in H. apply Ok_inj in H as [<- _].
  apply store_ok_update; [exact Hs|].
  intros v _. unfold assign_all; cbn [fold_left assign_one].
  unfold user_ok; cbn [level xp hp points].
  destruct Hlv as (? & ? & ?); [lia|lia|]. repeat split; lia.
Qed.

(** X2 *)
(** The reminder button [remdone] changes the store exactly as the task
    button [tdone]: same guard, same rewards, same failure. *)
Theorem reminder_done_same_store (s : store) (uid tid : Z) (now : string) :
  outcome_store (reminder_done s uid tid now) = result_store (task_done s uid tid now).
Proof.
  unfold reminder_done, task_done.
  destruct (get_task s tid) as [t|]; [|reflexivity].
  destruct (truthy (completed t)); [reflexivity|].
  destruct (get_user s uid) as [u|]; [|reflexivity].
  destruct (calc_rewards (task_type t) (pepper_mode u)) as [[xg pg] hg].
  destruct (level_up (xp u + xg) (level u)) as [nx nl]. reflexivity.
Qed.

(** X3 *)
(** A purchase keeps every user row within its bounds; in particular the
    points never go negative. *)
Theorem shop_buy_store_ok (s s1 : store) (uid : Z) (item : string) (out : list msg) :
  store_ok s -> shop_buy s uid item = Ok s1 out -> store_ok s1.
Proof.
  intros Hs H. unfold shop_buy in H. cbv zeta in H.
  destruct (get_user s uid) as [u|] eqn:Hu; [|discriminate].
  destruct (points u <? price_of item) eqn:Ep; [apply Ok_inj in H as [<- _]; exact Hs|].
  apply Z.ltb_ge in Ep.
  destruct (String.eqb item "shield"); [|destruct (String.eqb item "pepper")];
    apply Ok_inj in H as [<- _]; try exact Hs;
    apply store_ok_update; try exact Hs;
    intros v (Hl & Hx & Hh & Hp); unfold assign_all; cbn [fold_left assign_one];
    unfold user_ok; cbn [level xp hp points]; repeat split; lia.
Qed.

(** X4 *)
(** An item other than ["shield"] and ["pepper"] costs 0: the purchase is
    answered as bought and the store is left as it was. *)
Theorem shop_buy_unknown_item (s : store) (uid : Z) (item : string) (u : user) :
  item <> "shield"%string -> item <> "pepper"%string ->
  get_user s uid = Some u -> 0 <= points u ->
  shop_buy s uid item = Ok s [Answer A_Bought].
Proof.
  intros H1 H2 Hu Hp. unfold shop_buy, price_of. rewrite Hu.
  apply String.eqb_neq in H1. apply String.eqb_neq in H2. rewrite H1, H2.
  destruct (points u <? 0) eqn:E; [apply Z.ltb_lt in E; lia|reflexivity].
Qed.

(** X5 *)
(** Claiming a reward keeps every user row within its bounds. *)
Theorem reward_claim_store_ok (s s1 : store) (uid rid today : Z) (now : string)
    (out : list msg) :
  store_ok s -> reward_claim s uid rid today now = Ok s1 out -> store_ok s1.
Proof.
  intros Hs H. unfold reward_claim in H. cbv zeta in H.
  destruct (get_reward s rid) as [r|]; [|apply Ok_inj in H as [<- _]; exact Hs].
  destruct (negb _ || _); [apply Ok_inj in H as [<- _]; exact Hs|].
  destruct (get_user s uid) as [u|] eqn:Hu; [|discriminate].
  destruct (points u <? cost r) eqn:Ep; [apply Ok_inj in H as [<- _]; exact Hs|].
  apply Z.ltb_ge in Ep. apply Ok_inj in H as [<- _].
  change (store_ok (update_user s uid [Set_points (points u - cost r)])).
  apply store_ok_update; [exact Hs|].
  intros v (Hl & Hx & Hh & Hp). unfold assign_all; cbn [fold_left assign_one].
  unfold user_ok; cbn [level xp hp points]. repeat split; lia.
Qed.

(** X6 *)
(** [reward_claim] does not look at the [claimed] flag: on a day the gate
    is open, pressing the claim button of the same reward twice succeeds
    twice and debits its cost twice. *)
Theorem reward_claim_twice (s : store) (uid rid today : Z) (now now' : string)
    (r : reward) (u : user) :
  get_reward s rid = Some r -> can_claim s uid today = true ->
  get_user s uid = Some u -> 0 <= cost r -> 2 * cost r <= points u ->
  exists s1 s2,
    reward_claim s uid rid today now
      = Ok s1 [Send uid (N_RewardClaimed rid (cost r)); Answer A_RewardReceived] /\
    reward_claim s1 uid rid today now'
      = Ok s2 [Send uid (N_RewardClaimed rid (cost r)); Answer A_RewardReceived] /\
    option_map points (get_user s2 uid) = Some (points u - 2 * cost r).
Proof.
  intros Hr Hc Hu Hc0 Hle. unfold can_claim in Hc. cbv zeta in Hc.
  apply andb_prop in Hc as [Hsun Hq]. apply negb_true_iff in Hq.
  set (s1 := claim_reward (update_user s uid [Set_points (points u - cost r)]) rid now).
  set (u1 := assign_all u [Set_points (points u - cost r)]).
  assert (Hu1 : get_user s1 uid = Some u1).
  { unfold s1. rewrite get_user_claim, get_user_update_same, Hu. reflexivity. }
  assert (Hr1 : get_reward s1 rid = Some (set_claimed now r)).
  { unfold s1. rewrite get_reward_claim, get_reward_update, Hr. reflexivity. }
  assert (Hrate : get_week_completion_rate s1 uid today
                  = get_week_completion_rate s uid today).
  { apply week_rate_tasks. unfold s1. apply tasks_update. }
  exists s1, (claim_reward (update_user s1 uid [Set_points (points u1 - cost r)]) rid now').
  split; [|split].
  - unfold reward_claim. rewrite Hr. cbv zeta. rewrite Hsun, Hq. cbn [negb orb].
    rewrite Hu. destruct (points u <? cost r) eqn:E; [apply Z.ltb_lt in E; lia|reflexivity].
  - unfold reward_claim. rewrite Hr1. cbv zeta. rewrite Hsun, Hrate, Hq. cbn [negb orb].
    rewrite Hu1. cbn [cost set_claimed].
    unfold u1, assign_all; cbn [fold_left assign_one points].
    destruct (points u - cost r <? cost r) eqn:E; [apply Z.ltb_lt in E; lia|reflexivity].
  - rewrite get_user_claim, get_user_update_same, Hu1. cbn [option_map].
    unfold u1, assign_all; cbn [fold_left assign_one points]. f_equal. lia.
Qed.

End HandlerFacts.

Section SettlementFacts.

Lemma penalty_of_nonneg (ty : string) :
  0 <= fst (penalty_of ty) /\ 0 <= snd (penalty_of ty).
Proof.
  unfold penalty_of.
  repeat match goal with |- context [if ?c then _ else _] => destruct c end;
    cbn; lia.
Qed.

Lemma penalty_loop_mono (ts : list task) (sh : bool) (a b : Z) :
  a <= fst (fst (penalty_loop ts sh a b)) /\ b <= snd (fst (penalty_loop ts sh a b)).
Proof.
  revert sh a b. induction ts as [|t ts IH]; intros sh a b; cbn [penalty_loop].
  - cbn. lia.
  - pose proof (penalty_of_nonneg (task_type t)) as Hn.
    destruct (penalty_of (task_type t)) as [h p]. cbn [fst snd] in Hn.
    destruct (sh && (0 <? h)); cbv beta iota zeta;
      match goal with |- context [penalty_loop ts ?sh' ?a' ?b'] =>
        destruct (IH sh' a' b') end; lia.
Qed.

Lemma store_ok_mark (x : store) (uid d : Z) :
  store_ok x -> store_ok (mark_tasks_penalized x uid d).
Proof. intros H. exact H. Qed.

Lemma sum_Z_cons (x : Z) (l : list Z) : sum_Z (x :: l) = x + sum_Z l.
Proof. reflexivity. Qed.

Lemma mark_tasks_Forall2 (x : store) (uid d : Z) :
  Forall2 (fun t t1 => t1 = t \/
             (task_user_id t = uid /\ created_date t = d /\ completed t = 0 /\
              t1 = set_penalized t))
          (tasks x) (tasks (mark_tasks_penalized x uid d)).
Proof.
  unfold mark_tasks_penalized. cbn [tasks].
  induction (tasks x) as [|t ts IH]; cbn [map]; constructor; [|exact IH].
  destruct ((task_user_id t =? uid) && (created_date t =? d) && (completed t =? 0)) eqn:E.
  - right. apply andb_prop in E as [E E3]. apply andb_prop in E as [E1 E2].
    apply Z.eqb_eq in E1, E2, E3. auto.
  - left. reflexivity.
Qed.

Lemma Forall2_same {A : Type} (R : A -> A -> Prop) (l : list A) :
  (forall a, R a a) -> Forall2 R l l.
Proof. intros HR. induction l; constructor; auto. Qed.

(** X7 *)
(** The evening settlement keeps every user row within its bounds: HP
    stays in [0, 100] and points stay non-negative. *)
Theorem evening_store_ok (s s1 : store) (uid today : Z) (out : list msg) :
  store_ok s -> process_evening s uid today = Ok s1 out -> store_ok s1.
Proof.
  intros Hs H. unfold process_evening in H.
  destruct (get_tasks_by_date s uid today) as [|t0 ts0] eqn:Ets;
    [apply Ok_inj in H as [<- _]; exact Hs|].
  destruct (get_user s uid) as [u|] eqn:Hu; [|apply Ok_inj in H as [<- _]; exact Hs].
  pose proof (store_ok_get _ _ _ Hs Hu) as (Hl & Hx & Hh & Hp).
  pose proof (penalty_loop_mono (filter is_failed (t0 :: ts0))
                (truthy (shield_active u)) 0 0) as Hm.
  destruct (penalty_loop _ _ _ _) as [[hl pl] sh] eqn:Epl. cbn [fst snd] in Hm.
  cbv zeta in H.
  destruct (Z.of_nat (List.length (filter _ (t0 :: ts0)))
            =? Z.of_nat (List.length (t0 :: ts0)));
    cbv beta iota zeta in H; apply Ok_inj in H as [<- _];
    apply store_ok_mark; apply store_ok_update; try exact Hs;
    intros v (Hl' & Hx' & Hh' & Hp'); unfold assign_all; cbn [fold_left assign_one];
    unfold user_ok; cbn [level xp hp points]; repeat split; lia.
Qed.

(** X8 *)
(** The settlement never raises a user's HP or points (when they start
    non-negative): it only takes away. *)
Theorem evening_never_raises (s s1 : store) (uid today : Z) (out : list msg)
    (u u1 : user) :
  get_user s uid = Some u -> 0 <= hp u -> 0 <= points u ->
  process_evening s uid today = Ok s1 out -> get_user s1 uid = Some u1 ->
  hp u1 <= hp u /\ points u1 <= points u.
Proof.
  intros Hu Hh Hp H Hu1. unfold process_evening in H.
  destruct (get_tasks_by_date s uid today) as [|t0 ts0] eqn:Ets.
  - apply Ok_inj in H as [<- _]. rewrite Hu in Hu1. injection Hu1 as <-. lia.
  - rewrite Hu in H.
    pose proof (penalty_loop_mono (filter is_failed (t0 :: ts0))
                  (truthy (shield_active u)) 0 0) as Hm.
    destruct (penalty_loop _ _ _ _) as [[hl pl] sh] eqn:Epl. cbn [fst snd] in Hm.
    cbv zeta in H.
    destruct (Z.of_nat (List.length (filter _ (t0 :: ts0)))
              =? Z.of_nat (List.length (t0 :: ts0)));
      cbv beta iota zeta in H; apply Ok_inj in H as [<- _];
      rewrite get_user_mark, get_user_update_same, Hu in Hu1; injection Hu1 as <-;
      unfold assign_all; cbn [fold_left assign_one hp points]; lia.
Qed.

(** X9 *)
(** The penalty loop in closed form: the points loss is the sum of the
    points penalties; the HP loss is the sum of the HP penalties, less the
    first positive one when the shield is up; the shield comes out still up
    only if no HP penalty was positive. *)
Theorem penalty_loop_closed_form (ts : list task) (sh : bool) (a b : Z) :
  penalty_loop ts sh a b =
  (a + sum_Z (hp_penalties ts) - (if sh then first_positive (hp_penalties ts) else 0),
   b + sum_Z (pts_penalties ts),
   sh && (first_positive (hp_penalties ts) =? 0)).
Proof.
  revert sh a b. induction ts as [|t ts IH]; intros sh a b.
  - cbn [penalty_loop hp_penalties pts_penalties map sum_Z fold_right first_positive].
    destruct sh; cbn [andb Z.eqb]; f_equal; [f_equal; lia|f_equal; lia].
  - cbn [penalty_loop]. unfold hp_penalties, pts_penalties. cbn [map].
    destruct (penalty_of (task_type t)) as [h p] eqn:Ep. cbn [fst snd].
    fold (hp_penalties ts) (pts_penalties ts). rewrite !sum_Z_cons.
    cbn [first_positive].
    destruct sh, (0 <? h) eqn:E; cbn [andb]; cbv beta iota zeta; rewrite IH;
      cbn [andb]; f_equal; try (f_equal; lia).
    all: apply Z.ltb_lt in E; symmetry; apply Z.eqb_neq; lia.
Qed.

(** X10 *)
(** The settlement of [uid] touches no other user, no reward, and of the
    tasks only the open ones of [uid] on [today], which it marks penalized;
    a completed task is never changed. *)
Theorem evening_frame (s s1 : store) (uid today : Z) (out : list msg) :
  process_evening s uid today = Ok s1 out ->
  (forall id, id <> uid -> get_user s1 id = get_user s id) /\
  rewards s1 = rewards s /\
  Forall2 (fun t t1 => t1 = t \/
             (task_user_id t = uid /\ created_date t = today /\ completed t = 0 /\
              t1 = set_penalized t))
          (tasks s) (tasks s1).
Proof.
  intros H. unfold process_evening in H.
  destruct (get_tasks_by_date s uid today) as [|t0 ts0] eqn:Ets.
  { apply Ok_inj in H as [<- _].
    split; [auto|split; [reflexivity|apply Forall2_same; auto]]. }
  destruct (get_user s uid) as [u|] eqn:Hu.
  2: { apply Ok_inj in H as [<- _].
       split; [auto|split; [reflexivity|apply Forall2_same; auto]]. }
  destruct (penalty_loop _ _ _ _) as [[hl pl] sh] eqn:Epl.
  cbv zeta in H.
  destruct (Z.of_nat (List.length (filter _ (t0 :: ts0)))
            =? Z.of_nat (List.length (t0 :: ts0)));
    cbv beta iota zeta in H; apply Ok_inj in H as [<- _];
    (split; [intros id Hid; rewrite get_user_mark, get_user_update_other by exact Hid;
             reflexivity|]);
    (split; [cbn [mark_tasks_penalized rewards]; apply rewards_update|]);
    match goal with |- Forall2 _ _ (tasks (mark_tasks_penalized (update_user _ _ ?kw) _ _)) =>
      rewrite (tasks_mark_update s uid today kw) end;
    apply mark_tasks_Forall2.
Qed.

(** X11 *)
(** With no task for the day, or no user row, the settlement does nothing
    and sends nothing. *)
Theorem evening_nothing_to_settle (s : store) (uid today : Z) :
  get_tasks_by_date s uid today = [] \/ get_user s uid = None ->
  process_evening s uid today = Ok s [].
Proof.
  intros [H|H]; unfold process_evening; [rewrite H; reflexivity|].
  destruct (get_tasks_by_date s uid today); [reflexivity|]. rewrite H. reflexivity.
Qed.

Lemma length_filter_le {A : Type} (f : A -> bool) (l : list A) :
  (List.length (filter f l) <= List.length l)%nat.
Proof. induction l as [|a l IH]; cbn; [lia|]. destruct (f a); cbn; lia. Qed.

(** X12 *)
(** The weekly completion rate is a percentage: between 0 and 100. *)
Theorem week_rate_bounds (s : store) (uid today : Z) :
  (0 <= get_week_completion_rate s uid today <= 100)%Q.
Proof.
  unfold get_week_completion_rate. cbv zeta.
  pose proof (length_filter_le (fun t => completed t =? 1) (week_tasks s uid today)) as Hle.
  revert Hle.
  generalize (List.length (filter (fun t => completed t =? 1) (week_tasks s uid today))) as d.
  generalize (List.length (week_tasks s uid today)) as n.
  intros n d Hle. pose proof (Nat2Z.is_nonneg d) as Hd0. apply inj_le in Hle.
  revert Hle Hd0. generalize (Z.of_nat d) as dz. generalize (Z.of_nat n) as nz.
  intros nz dz Hle Hd0.
  destruct (0 <? nz) eqn:E.
  - apply Z.ltb_lt in E. destruct nz as [|p|p]; [lia| |lia].
    unfold Qle, Qdiv, Qmult, Qinv, inject_Z; cbn [Qnum Qden]. split; nia.
  - split; unfold Qle; cbn; lia.
Qed.

End SettlementFacts.

Section RowFacts.

Lemma find_app {A : Type} (f : A -> bool) (l1 l2 : list A) :
  find f (l1 ++ l2) = match find f l1 with Some x => Some x | None => find f l2 end.
Proof. induction l1 as [|a l1 IH]; cbn; [reflexivity|]. destruct (f a); auto. Qed.

Lemma get_user_create (s : store) (uid id : Z) :
  get_user (create_user s uid) id
  = match get_user s id with
    | Some u => Some u
    | None => if id =? uid then Some (default_user uid) else None
    end.
Proof.
  unfold create_user. destruct (get_user s uid) as [v|] eqn:Ev.
  - destruct (get_user s id) as [w|] eqn:Ew; [reflexivity|].
    destruct (id =? uid) eqn:E; [|reflexivity].
    apply Z.eqb_eq in E. subst. congruence.
  - unfold get_user at 1. cbn [users]. rewrite find_app. fold (get_user s id).
    destruct (get_user s id); [reflexivity|]. cbn [find default_user user_id].
    rewrite Z.eqb_sym. reflexivity.
Qed.

Lemma find_all_false {A : Type} (f : A -> bool) (l : list A) :
  (forall x, In x l -> f x = false) -> find f l = None.
Proof.
  induction l as [|a l IH]; intros H; [reflexivity|]. cbn.
  rewrite (H a (or_introl eq_refl)). apply IH. intros x Hx. apply H. right. exact Hx.
Qed.

Lemma default_user_ok (uid : Z) : user_ok (default_user uid).
Proof. unfold user_ok; cbn; lia. Qed.

Lemma get_task_delete (s : store) (tid tid' : Z) :
  get_task (delete_task s tid) tid' = if tid' =? tid then None else get_task s tid'.
Proof.
  unfold get_task, delete_task. cbn [tasks].
  induction (tasks s) as [|t ts IH]; cbn [filter find].
  - destruct (tid' =? tid); reflexivity.
  - destruct (task_id t =? tid) eqn:E; cbn [negb].
    + rewrite IH. destruct (tid' =? tid) eqn:E'; [reflexivity|].
      apply Z.eqb_eq in E. apply Z.eqb_neq in E'.
      destruct (task_id t =? tid') eqn:E''; [apply Z.eqb_eq in E''; lia|reflexivity].
    + cbn [find]. rewrite IH. destruct (task_id t =? tid') eqn:E'; [|reflexivity].
      apply Z.eqb_eq in E'. subst. rewrite E. reflexivity.
Qed.

Lemma get_reward_delete (s : store) (rid rid' : Z) :
  get_reward (delete_reward s rid) rid' = if rid' =? rid then None else get_reward s rid'.
Proof.
  unfold get_reward, delete_reward. cbn [rewards].
  induction (rewards s) as [|r rs IH]; cbn [filter find].
  - destruct (rid' =? rid); reflexivity.
  - destruct (reward_id r =? rid) eqn:E; cbn [negb].
    + rewrite IH. destruct (rid' =? rid) eqn:E'; [reflexivity|].
      apply Z.eqb_eq in E. apply Z.eqb_neq in E'.
      destruct (reward_id r =? rid') eqn:E''; [apply Z.eqb_eq in E''; lia|reflexivity].
    + cbn [find]. rewrite IH. destruct (reward_id r =? rid') eqn:E'; [|reflexivity].
      apply Z.eqb_eq in E'. subst. rewrite E. reflexivity.
Qed.

(** X13 *)
(** [create_user] ([INSERT OR IGNORE]) never overwrites: an existing row
    is kept as it is, a missing one gets the column defaults, and no other
    row, task or reward changes. *)
Theorem create_user_lookup (s : store) (uid : Z) :
  get_user (create_user s uid) uid
    = Some (match get_user s uid with Some u => u | None => default_user uid end) /\
  (forall id, id <> uid -> get_user (create_user s uid) id = get_user s id) /\
  tasks (create_user s uid) = tasks s /\ rewards (create_user s uid) = rewards s.
Proof.
  split; [|split; [|split]].
  - rewrite get_user_create, Z.eqb_refl. destruct (get_user s uid); reflexivity.
  - intros id Hid. rewrite get_user_create. destruct (get_user s id); [reflexivity|].
    apply Z.eqb_neq in Hid. rewrite Hid. reflexivity.
  - unfold create_user. destruct (get_user s uid); reflexivity.
  - unfold create_user. destruct (get_user s uid); reflexivity.
Qed.

(** X14 *)
(** The row [create_user] adds satisfies the bounds every handler keeps. *)
Theorem create_user_store_ok (s : store) (uid : Z) :
  store_ok s -> store_ok (create_user s uid).
Proof.
  intros Hs. unfold create_user. destruct (get_user s uid); [exact Hs|].
  unfold store_ok; cbn [users]. apply Forall_app. split; [exact Hs|].
  constructor; [apply default_user_ok|constructor].
Qed.

(** X15 *)
(** [_ensure_user] always returns a row: the existing one, or the one it
    has just created. *)
Theorem ensure_user_returns_row (s : store) (uid : Z) :
  exists u, ensure_user s uid = (create_user s uid, Some u) /\
            get_user (create_user s uid) uid = Some u.
Proof.
  unfold ensure_user. destruct (get_user s uid) as [u|] eqn:E.
  - exists u. unfold create_user. rewrite E. auto.
  - exists (default_user uid). rewrite get_user_create, E, Z.eqb_refl. auto.
Qed.

(** X16 *)
(** [add_task] with the fresh id AUTOINCREMENT gives: the new row is found
    under that id, it is the last task of its user and day, other ids are
    unaffected, and, being open and not penalized, it counts as failed at
    the evening settlement unless completed first. *)
Theorem add_task_lookup (s : store) (tid uid : Z) (ttl ty : string)
    (rem : option string) (d : Z) :
  (forall t, In t (tasks s) -> task_id t < tid) ->
  get_task (add_task s tid uid ttl ty rem d) tid = Some (new_task tid uid ttl ty rem d) /\
  (forall tid', tid' <> tid ->
     get_task (add_task s tid uid ttl ty rem d) tid' = get_task s tid') /\
  get_tasks_by_date (add_task s tid uid ttl ty rem d) uid d
    = get_tasks_by_date s uid d ++ [new_task tid uid ttl ty rem d] /\
  is_failed (new_task tid uid ttl ty rem d) = true.
Proof.
  intros Hfresh. unfold get_task, get_tasks_by_date, add_task. cbn [tasks].
  split; [|split; [|split]].
  - rewrite find_app.
    replace (find (fun t => task_id t =? tid) (tasks s)) with (@None task).
    + cbn. rewrite Z.eqb_refl. reflexivity.
    + symmetry. apply find_all_false. intros t Ht.
      apply Z.eqb_neq. specialize (Hfresh t Ht). lia.
  - intros tid' Hne. rewrite find_app. destruct (find _ (tasks s)); [reflexivity|].
    cbn. apply Z.eqb_neq in Hne. rewrite Z.eqb_sym, Hne. reflexivity.
  - rewrite filter_app. cbn. rewrite !Z.eqb_refl. reflexivity.
  - reflexivity.
Qed.

End RowFacts.

Section CompositionFacts.

(** X17 *)
(** After the [tdone] button, the scheduled reminder of that task sends
    nothing: [_send_reminder] sees the task completed (or missing). *)
Theorem task_done_then_no_reminder (s s1 : store) (uid uid' tid : Z) (now : string)
    (out : list msg) :
  task_done s uid tid now = Ok s1 out -> send_reminder s1 uid' tid = Ok s1 [].
Proof.
  intros H. unfold task_done in H.
  destruct (get_task s tid) as [t|] eqn:Et.
  2: { apply Ok_inj in H as [<- _]. unfold send_reminder. rewrite Et. reflexivity. }
  destruct (truthy (completed t)) eqn:Ec.
  { apply Ok_inj in H as [<- _]. unfold send_reminder. rewrite Et, Ec. reflexivity. }
  destruct (get_user s uid) as [u|]; [|discriminate].
  destruct (calc_rewards (task_type t) (pepper_mode u)) as [[xg pg] hg].
  destruct (level_up (xp u + xg) (level u)) as [nx nl].
  cbv beta iota zeta in H. apply Ok_inj in H as [<- _].
  unfold send_reminder. rewrite get_task_update, get_task_complete, Et. reflexivity.
Qed.

(** X18 *)
(** The [tdel] button removes the task: it is no longer found, its
    reminder sends nothing, and other tasks and the users stay as they
    were. *)
Theorem task_delete_removes (s : store) (uid uid' tid : Z) :
  exists s1 out, task_delete s uid tid = Done s1 out /\
    get_task s1 tid = None /\ send_reminder s1 uid' tid = Ok s1 [] /\
    (forall tid', tid' <> tid -> get_task s1 tid' = get_task s tid') /\
    users s1 = users s.
Proof.
  unfold task_delete. destruct (get_task s tid) as [t|] eqn:Et.
  - eexists; eexists; split; [reflexivity|].
    rewrite get_task_delete, Z.eqb_refl. split; [reflexivity|].
    split; [unfold send_reminder; rewrite get_task_delete, Z.eqb_refl; reflexivity|].
    split; [|reflexivity].
    intros tid' Hne. rewrite get_task_delete. apply Z.eqb_neq in Hne. rewrite Hne.
    reflexivity.
  - eexists; eexists; split; [reflexivity|].
    split; [exact Et|]. split; [unfold send_reminder; rewrite Et; reflexivity|].
    split; [reflexivity|reflexivity].
Qed.

(** X19 *)
(** The [rdel] button deletes the reward without checking it exists; a
    later claim of it answers "not found" and changes nothing. *)
Theorem reward_del_then_claim (s : store) (uid uid' rid today : Z) (now : string) :
  exists s1 out, reward_del s uid rid = Done s1 out /\
    reward_claim s1 uid' rid today now = Ok s1 [Answer A_RewardNotFound] /\
    (forall rid', rid' <> rid -> get_reward s1 rid' = get_reward s rid') /\
    users s1 = users s /\ tasks s1 = tasks s.
Proof.
  eexists; eexists; split; [reflexivity|].
  split; [unfold reward_claim; rewrite get_reward_delete, Z.eqb_refl; reflexivity|].
  split; [|split; reflexivity].
  intros rid' Hne. rewrite get_reward_delete. apply Z.eqb_neq in Hne. rewrite Hne.
  reflexivity.
Qed.

(** X20 *)
(** A reward claimed through [reward_claim] disappears from the reward
    list ([get_rewards], claimed = 0 only) of every user. *)
Theorem reward_claim_unlists (s s1 : store) (uid uid' rid today : Z) (now : string)
    (out : list msg) :
  reward_claim s uid rid today now = Ok s1 out -> In (Answer A_RewardReceived) out ->
  forall r, In r (get_rewards s1 uid') -> reward_id r <> rid.
Proof.
  intros H Hin. unfold reward_claim in H. cbv zeta in H.
  destruct (get_reward s rid) as [r0|];
    [|apply Ok_inj in H as [_ <-]; destruct Hin as [Hin|[]]; discriminate].
  destruct (negb _ || _); [apply Ok_inj in H as [_ <-]; destruct Hin as [Hin|[]]; discriminate|].
  destruct (get_user s uid) as [u|]; [|discriminate].
  destruct (points u <? cost r0);
    [apply Ok_inj in H as [_ <-]; destruct Hin as [Hin|[]]; discriminate|].
  apply Ok_inj in H as [<- _].
  intros r Hr. unfold get_rewards, claim_reward in Hr. cbn [rewards] in Hr.
  rewrite rewards_update in Hr.
  apply filter_In in Hr as [Hr Hc]. apply in_map_iff in Hr as (r1 & Er & Hr1).
  destruct (reward_id r1 =? rid) eqn:E.
  - subst r. cbn in Hc. rewrite andb_false_r in Hc. discriminate.
  - subst r. apply Z.eqb_neq in E. exact E.
Qed.

End CompositionFacts.

Section IdeaFacts.

Lemma get_idea_update (is : idea_store) (iid : Z) (st : string) :
  get_idea (update_idea_status is iid st) iid = option_map (set_status st) (get_idea is iid).
Proof.
  unfold get_idea, update_idea_status. cbn [ideas].
  induction (ideas is) as [|i l IH]; [reflexivity|].
  cbn [map find]. destruct (idea_id i =? iid) eqn:E.
  - cbn [set_status idea_id]. rewrite E. reflexivity.
  - rewrite E. exact IH.
Qed.

Lemma idea_cycle_get (is : idea_store) (iid : Z) :
  get_idea (idea_cycle_status is iid) iid
  = option_map (fun i => set_status (status_cycle (status i)) i) (get_idea is iid).
Proof.
  unfold idea_cycle_status. destruct (get_idea is iid) eqn:E;
    [rewrite get_idea_update, E|rewrite E]; reflexivity.
Qed.

Lemma status_cycle_in (st : string) : In (status_cycle st) ["new"; "wip"; "done"]%string.
Proof.
  unfold status_cycle.
  repeat match goal with |- context [if ?c then _ else _] => destruct c end;
    cbn; tauto.
Qed.

Lemma filter_filter_negb {A : Type} (f : A -> bool) (l : list A) :
  filter f (filter (fun x => negb (f x)) l) = [].
Proof.
  induction l as [|a l IH]; [reflexivity|]. cbn.
  destruct (f a) eqn:E; cbn; [exact IH|]. rewrite E. exact IH.
Qed.

Lemma filter_filter_other {A : Type} (g f : A -> bool) (l : list A) :
  (forall x, g x = true -> f x = false) ->
  filter g (filter (fun x => negb (f x)) l) = filter g l.
Proof.
  intros H. induction l as [|a l IH]; [reflexivity|]. cbn.
  destruct (f a) eqn:E; cbn.
  - destruct (g a) eqn:Eg; [rewrite (H a Eg) in E; discriminate|exact IH].
  - destruct (g a); [f_equal|]; exact IH.
Qed.

Lemma find_filter_other {A : Type} (g f : A -> bool) (l : list A) :
  (forall x, g x = true -> f x = false) ->
  find g (filter (fun x => negb (f x)) l) = find g l.
Proof.
  intros H. induction l as [|a l IH]; [reflexivity|]. cbn.
  destruct (f a) eqn:E; cbn.
  - destruct (g a) eqn:Eg; [rewrite (H a Eg) in E; discriminate|exact IH].
  - destruct (g a); [reflexivity|exact IH].
Qed.

(** X21 *)
(** The status button of an idea always leaves it in one of ['new'],
    ['wip'], ['done'] (an unknown status becomes ['new']); from one of
    those, three presses bring the idea back to where it was. *)
Theorem idea_status_cycle (is : idea_store) (iid : Z) (i : idea) :
  get_idea is iid = Some i ->
  (exists i1, get_idea (idea_cycle_status is iid) iid = Some i1 /\
              In (status i1) ["new"; "wip"; "done"]%string) /\
  (In (status i) ["new"; "wip"; "done"]%string ->
   get_idea (idea_cycle_status (idea_cycle_status (idea_cycle_status is iid) iid) iid) iid
     = Some i).
Proof.
  intros H. split.
  - rewrite idea_cycle_get, H. eexists; split; [reflexivity|].
    cbn [status set_status]. apply status_cycle_in.
  - intros Hin. rewrite !idea_cycle_get, H. cbn [option_map].
    destruct i as [a b c d st]; cbn [status] in *.
    destruct Hin as [<-|[<-|[<-|[]]]]; reflexivity.
Qed.

(** X22 *)
(** Deleting an existing category deletes its ideas with it: afterwards
    neither the category nor any idea filed under it is left, and other
    categories and their ideas are untouched. *)
Theorem cat_delete_cascade (is : idea_store) (cid : Z) (c : category) :
  get_category is cid = Some c ->
  get_category (cat_delete is cid) cid = None /\
  count_ideas_in_category (cat_delete is cid) cid = 0 /\
  (forall cid', cid' <> cid ->
     get_category (cat_delete is cid) cid' = get_category is cid' /\
     get_ideas_by_category (cat_delete is cid) cid' = get_ideas_by_category is cid').
Proof.
  intros H. unfold cat_delete. rewrite H.
  unfold delete_category, get_category, count_ideas_in_category, get_ideas_by_category.
  cbn [categories ideas]. split; [|split].
  - apply find_all_false. intros x Hx. apply filter_In in Hx as [_ Hx].
    destruct (cat_id x =? cid); [discriminate|reflexivity].
  - rewrite (filter_filter_negb (fun i => category_id i =? cid)). reflexivity.
  - intros cid' Hne. split.
    + apply (find_filter_other (fun x => cat_id x =? cid') (fun x => cat_id x =? cid)).
      intros x Hx. apply Z.eqb_eq in Hx. apply Z.eqb_neq. lia.
    + apply (filter_filter_other (fun x => category_id x =? cid')
                                 (fun x => category_id x =? cid)).
      intros x Hx. apply Z.eqb_eq in Hx. apply Z.eqb_neq. lia.
Qed.

End IdeaFacts.

Section AccessFacts.

Lemma existsb_remove (wl : whitelist) (uid x : Z) :
  existsb (Z.eqb x) (remove_from_whitelist wl uid)
  = if x =? uid then false else existsb (Z.eqb x) wl.
Proof.
  unfold remove_from_whitelist. induction wl as [|a wl IH]; cbn [filter existsb].
  - destruct (x =? uid); reflexivity.
  - destruct (a =? uid) eqn:E; cbn [negb existsb]; rewrite IH.
    + apply Z.eqb_eq in E. subst a. destruct (x =? uid); reflexivity.
    + destruct (x =? uid) eqn:E2; [|reflexivity].
      apply Z.eqb_eq in E2. subst x. rewrite Z.eqb_sym, E. reflexivity.
Qed.

Lemma is_whitelisted_add (wl : whitelist) (uid : Z) :
  is_whitelisted (add_to_whitelist wl uid) uid = true.
Proof.
  unfold is_whitelisted, add_to_whitelist.
  destruct (existsb (Z.eqb uid) wl) eqn:E; [exact E|].
  rewrite existsb_app. cbn. rewrite Z.eqb_refl, orb_true_r. reflexivity.
Qed.

(** X23 *)
(** Access control: the admin passes the middleware whatever the
    whitelist; a user the admin adds passes and has a user row; a user the
    admin removes is blocked (unless it is the admin), and nobody else's
    access changes; the two commands from anyone but the admin change
    nothing. *)
Theorem whitelist_admin_commands (wl : whitelist) (s : store) (admin uid uid' : Z) :
  middleware_passes wl admin (Some admin) = true /\
  middleware_passes (fst (users_add_id wl s admin admin uid)) admin (Some uid) = true /\
  get_user (snd (users_add_id wl s admin admin uid)) uid <> None /\
  middleware_passes (users_del wl admin admin uid) admin (Some uid) = (uid =? admin) /\
  (uid' <> uid -> middleware_passes (users_del wl admin admin uid) admin (Some uid')
                  = middleware_passes wl admin (Some uid')) /\
  (forall from, from <> admin ->
     users_add_id wl s admin from uid = (wl, s) /\ users_del wl admin from uid = wl).
Proof.
  split; [unfold middleware_passes; rewrite Z.eqb_refl; reflexivity|].
  split; [unfold middleware_passes, users_add_id; rewrite Z.eqb_refl; cbn [negb fst];
          rewrite is_whitelisted_add, orb_true_r; reflexivity|].
  split; [unfold users_add_id; rewrite Z.eqb_refl; cbn [negb snd];
          rewrite get_user_create, Z.eqb_refl; destruct (get_user s uid); discriminate|].
  split; [unfold middleware_passes, users_del, is_whitelisted; rewrite Z.eqb_refl;
          cbn [negb]; rewrite existsb_remove, Z.eqb_refl, orb_false_r; reflexivity|].
  split.
  - intros Hne. unfold middleware_passes, users_del, is_whitelisted.
    rewrite Z.eqb_refl. cbn [negb]. rewrite existsb_remove.
    apply Z.eqb_neq in Hne. rewrite Hne. reflexivity.
  - intros from Hf. apply Z.eqb_neq in Hf. unfold users_add_id, users_del.
    rewrite Hf. split; reflexivity.
Qed.

End AccessFacts.

Section TextFacts.

Lemma parse_time_bounds (text : string) (hour minute : Z) :
  parse_time text = Some (hour, minute) -> 0 <= hour <= 23 /\ 0 <= minute <= 59.
Proof.
  unfold parse_time. destruct (time_match _) as [[a b]|]; [|discriminate].
  destruct ((0 <=? a) && (a <=? 23) && (0 <=? b) && (b <=? 59)) eqn:E; [|discriminate].
  intros H. injection H as <- <-.
  apply andb_prop in E as [E E4]. apply andb_prop in E as [E E3].
  apply andb_prop in E as [E1 E2].
  apply Z.leb_le in E1, E2, E3, E4. lia.
Qed.

Lemma parse_time_rem_str_all :
  forallb (fun h => forallb (fun m =>
      match parse_time (rem_str (Z.of_nat h) (Z.of_nat m)) with
      | Some (a, b) => (a =? Z.of_nat h) && (b =? Z.of_nat m)
      | None => false
      end) (seq 0 60)) (seq 0 24) = true.
Proof. vm_compute. reflexivity. Qed.

Lemma parse_time_rem_str (hour minute : Z) :
  0 <= hour <= 23 -> 0 <= minute <= 59 ->
  parse_time (rem_str hour minute) = Some (hour, minute).
Proof.
  intros Hh Hm. pose proof parse_time_rem_str_all as H.
  assert (Ih : In (Z.to_nat hour) (seq 0 24)) by (apply in_seq; lia).
  assert (Im : In (Z.to_nat minute) (seq 0 60)) by (apply in_seq; lia).
  rewrite forallb_forall in H. specialize (H _ Ih).
  rewrite forallb_forall in H. specialize (H _ Im).
  rewrite !Z2Nat.id in H by lia.
  destruct (parse_time (rem_str hour minute)) as [[a b]|]; [|discriminate].
  apply andb_prop in H as [H1 H2]. apply Z.eqb_eq in H1, H2. subst. reflexivity.
Qed.

(** X24 *)
(** What [parse_time] accepts is a valid time of day, and the string
    [task_add_reminder] stores for it ([f"{hour:02d}:{minute:02d}"]) parses
    back to the same hour and minute. *)
Theorem parse_time_canonical (text : string) (hour minute : Z) :
  parse_time text = Some (hour, minute) ->
  0 <= hour <= 23 /\ 0 <= minute <= 59 /\
  parse_time (rem_str hour minute) = Some (hour, minute).
Proof.
  intros H. destruct (parse_time_bounds text hour minute H) as [Hh Hm].
  split; [exact Hh|]. split; [exact Hm|]. apply parse_time_rem_str; assumption.
Qed.

Lemma escape_chars_read (l : list ascii) :
  md2_no_bare (escape_chars l) = true /\ md2_text (escape_chars l) = l.
Proof.
  induction l as [|c l [IH1 IH2]]; [split; reflexivity|].
  cbn [escape_chars]. destruct (md2_special c) eqn:Es.
  - cbn [md2_no_bare md2_text]. rewrite IH1, IH2. split; reflexivity.
  - destruct (Ascii.eqb c "\"%char) eqn:Eb.
    + apply Ascii.eqb_eq in Eb. subst c. discriminate Es.
    + cbn [md2_no_bare md2_text]. rewrite Eb, Es, IH1, IH2. split; reflexivity.
Qed.

(** X25 *)
(** [escape_md] leaves no MarkdownV2 special character unescaped, and
    Telegram's reading of its output (a backslash makes the next character
    plain) gives back the original text. *)
Theorem escape_md_round_trip (text : string) :
  md2_no_bare (list_ascii_of_string (escape_md (Some text))) = true /\
  string_of_list_ascii (md2_text (list_ascii_of_string (escape_md (Some text)))) = text.
Proof.
  unfold escape_md. rewrite list_ascii_of_string_of_list_ascii.
  destruct (escape_chars_read (list_ascii_of_string text)) as [H1 H2].
  rewrite H1, H2, string_of_list_ascii_of_string. split; reflexivity.
Qed.

End TextFacts.

Section SchedulerFacts.

Lemma lookup_job_app (l1 l2 : jobs) (k : Z) :
  lookup_job (l1 ++ l2) k
  = match lookup_job l1 k with Some j => Some j | None => lookup_job l2 k end.
Proof.
  unfold lookup_job. rewrite find_app. destruct (find _ l1); reflexivity.
Qed.

Lemma lookup_job_map_other (js : jobs) (p : Z * job) (k : Z) :
  fst p <> k ->
  lookup_job (map (fun q => if fst q =? fst p then p else q) js) k = lookup_job js k.
Proof.
  intros Hne. unfold lookup_job. induction js as [|q js IH]; [reflexivity|].
  cbn [map find]. destruct (fst q =? fst p) eqn:E.
  - apply Z.eqb_eq in E. rewrite E. apply Z.eqb_neq in Hne. rewrite Hne. exact IH.
  - destruct (fst q =? k); [reflexivity|exact IH].
Qed.

Lemma lookup_job_map_same (js : jobs) (p : Z * job) :
  existsb (fun q => fst q =? fst p) js = true ->
  lookup_job (map (fun q => if fst q =? fst p then p else q) js) (fst p) = Some (snd p).
Proof.
  unfold lookup_job. induction js as [|q js IH]; [discriminate|].
  cbn [existsb map find]. destruct (fst q =? fst p) eqn:E.
  - intros _. cbn [find]. rewrite Z.eqb_refl. reflexivity.
  - cbn [orb]. intros H. rewrite E. exact (IH H).
Qed.

Lemma lookup_job_add (js : jobs) (p : Z * job) (k : Z) :
  lookup_job (add_job js p) k = if fst p =? k then Some (snd p) else lookup_job js k.
Proof.
  unfold add_job. destruct (existsb (fun q => fst q =? fst p) js) eqn:Ex.
  - destruct (fst p =? k) eqn:E.
    + apply Z.eqb_eq in E. subst k. apply lookup_job_map_same. exact Ex.
    + apply lookup_job_map_other. apply Z.eqb_neq. exact E.
  - rewrite lookup_job_app. destruct (fst p =? k) eqn:E.
    + apply Z.eqb_eq in E. subst k.
      replace (lookup_job js (fst p)) with (@None job); [unfold lookup_job; cbn [find]; rewrite Z.eqb_refl; reflexivity|].
      unfold lookup_job. rewrite find_all_false; [reflexivity|].
      intros q Hq. destruct (fst q =? fst p) eqn:Eq; [|reflexivity].
      rewrite <- Ex. symmetry. apply existsb_exists. exists q. auto.
    + destruct (lookup_job js k); [reflexivity|]. unfold lookup_job; cbn [find]. rewrite E. reflexivity.
Qed.

Lemma lookup_job_fold (P js : jobs) (k : Z) :
  lookup_job (fold_left add_job P js) k
  = match lookup_job (rev P) k with Some j => Some j | None => lookup_job js k end.
Proof.
  revert js. induction P as [|p P IH]; intros js; [reflexivity|].
  cbn [fold_left rev]. rewrite IH, lookup_job_app, lookup_job_add.
  destruct (lookup_job (rev P) k); [reflexivity|].
  unfold lookup_job at 2; cbn [find]. destruct (fst p =? k); reflexivity.
Qed.

Lemma lookup_job_in (l : jobs) (k : Z) (j : job) :
  lookup_job l k = Some j -> In (k, j) l.
Proof.
  unfold lookup_job. destruct (find (fun p => fst p =? k) l) as [[k' j']|] eqn:E;
    [|discriminate].
  intros H. injection H as <-. apply find_some in E as [Hin Ek].
  cbn in Ek. apply Z.eqb_eq in Ek. subst. exact Hin.
Qed.

Lemma restore_tasks_plan (py_int : list ascii -> option Z) (now_us uid : Z)
    (ts : list task) (js : jobs) :
  restore_tasks py_int now_us uid ts js
  = option_map (fun P => fold_left add_job P js) (plan_tasks py_int now_us uid ts).
Proof.
  revert js. induction ts as [|t ts IH]; intros js; [reflexivity|].
  cbn [restore_tasks plan_tasks].
  destruct (restore_task py_int now_us uid t) as [[p|]|]; [| |reflexivity];
    rewrite IH; destruct (plan_tasks py_int now_us uid ts); reflexivity.
Qed.

Lemma restore_users_plan (py_int : list ascii -> option Z) (s : store) (today now_us : Z)
    (uids : list Z) (js : jobs) :
  restore_users py_int s today now_us uids js
  = option_map (fun P => fold_left add_job P js) (plan_users py_int s today now_us uids).
Proof.
  revert js. induction uids as [|uid uids IH]; intros js; [reflexivity|].
  cbn [restore_users plan_users]. rewrite restore_tasks_plan.
  destruct (plan_tasks py_int now_us uid _) as [l1|]; [|reflexivity].
  cbn [option_map]. rewrite IH.
  destruct (plan_users py_int s today now_us uids); [|reflexivity].
  cbn [option_map]. rewrite fold_left_app. reflexivity.
Qed.

Lemma plan_tasks_in (py_int : list ascii -> option Z) (now_us uid : Z)
    (ts : list task) (P : jobs) (p : Z * job) :
  plan_tasks py_int now_us uid ts = Some P -> In p P ->
  exists t, In t ts /\ restore_task py_int now_us uid t = Some (Some p).
Proof.
  revert P. induction ts as [|t ts IH]; intros P H Hp.
  - injection H as <-. destruct Hp.
  - cbn [plan_tasks] in H.
    destruct (restore_task py_int now_us uid t) as [o|] eqn:Et; [|discriminate].
    destruct (plan_tasks py_int now_us uid ts) as [l|] eqn:El; [|discriminate].
    injection H as <-. destruct o as [q|].
    + destruct Hp as [<-|Hp]; [exists t; split; [left; reflexivity|exact Et]|].
      destruct (IH l eq_refl Hp) as (t' & Ht' & E'). exists t'. split; [right|]; assumption.
    + destruct (IH l eq_refl Hp) as (t' & Ht' & E'). exists t'. split; [right|]; assumption.
Qed.

Lemma plan_users_in (py_int : list ascii -> option Z) (s : store) (today now_us : Z)
    (uids : list Z) (P : jobs) (p : Z * job) :
  plan_users py_int s today now_us uids = Some P -> In p P ->
  exists uid t, In uid uids /\ In t (get_tasks_by_date s uid today) /\
                restore_task py_int now_us uid t = Some (Some p).
Proof.
  revert P. induction uids as [|uid uids IH]; intros P H Hp.
  - injection H as <-. destruct Hp.
  - cbn [plan_users] in H.
    destruct (plan_tasks py_int now_us uid _) as [l1|] eqn:E1; [|discriminate].
    destruct (plan_users py_int s today now_us uids) as [l2|] eqn:E2; [|discriminate].
    injection H as <-. apply in_app_or in Hp as [Hp|Hp].
    + destruct (plan_tasks_in _ _ _ _ _ _ E1 Hp) as (t & Ht & Et).
      exists uid, t. split; [left; reflexivity|]. split; assumption.
    + destruct (IH l2 eq_refl Hp) as (uid' & t & Hu & Ht & Et).
      exists uid', t. split; [right; exact Hu|]. split; assumption.
Qed.

(** X26 *)
(** [restore_reminders] is idempotent: run again on the job store it left
    (a second start the same moment), it runs through and every job id
    maps to the same job; [replace_existing=True] makes no duplicate. *)
Theorem restore_reminders_idempotent (py_int : list ascii -> option Z) (s : store)
    (wl : whitelist) (today now_us : Z) (js js1 : jobs) :
  restore_reminders py_int s wl today now_us js = Some js1 ->
  exists js2, restore_reminders py_int s wl today now_us js1 = Some js2 /\
              forall k, lookup_job js2 k = lookup_job js1 k.
Proof.
  unfold restore_reminders. rewrite !restore_users_plan.
  destruct (plan_users py_int s today now_us (get_all_user_ids wl)) as [P|];
    [|discriminate].
  intros H. injection H as <-. eexists; split; [reflexivity|].
  intros k. rewrite !lookup_job_fold.
  destruct (lookup_job (rev P) k); reflexivity.
Qed.

(** X27 *)
(** Every job [restore_reminders] schedules on an empty job store is for a
    task of today of a whitelisted user that is not completed, whose stored
    time parses to the job's hour and minute, and that time is still ahead
    of [now]; the job is sent to that user for that task. *)
Theorem restore_reminders_sound (py_int : list ascii -> option Z) (s : store)
    (wl : whitelist) (today now_us : Z) (js : jobs) (k : Z) (j : job) :
  restore_reminders py_int s wl today now_us [] = Some js ->
  lookup_job js k = Some j ->
  exists uid t,
    In uid wl /\ In t (get_tasks_by_date s uid today) /\ task_id t = k /\
    completed t = 0 /\ j = mk_job uid k (job_hour j) (job_minute j) /\
    parse_reminder py_int (reminder_time t) = Some (job_hour j, job_minute j) /\
    0 <= job_hour j <= 23 /\ 0 <= job_minute j <= 59 /\
    run_time_after (job_hour j) (job_minute j) now_us = true.
Proof.
  unfold restore_reminders. rewrite restore_users_plan.
  destruct (plan_users py_int s today now_us (get_all_user_ids wl)) as [P|] eqn:EP;
    [|discriminate].
  intros H Hk. injection H as <-.
  rewrite lookup_job_fold in Hk. cbn [lookup_job find] in Hk.
  destruct (lookup_job (rev P) k) as [j'|] eqn:Ej; [|discriminate].
  injection Hk as <-. apply lookup_job_in, in_rev in Ej.
  destruct (plan_users_in _ _ _ _ _ _ _ EP Ej) as (uid & t & Hu & Ht & Et).
  exists uid, t. split; [exact Hu|]. split; [exact Ht|].
  unfold restore_task in Et.
  destruct (truthy (completed t) || String.eqb (reminder_time t) "") eqn:Eskip;
    [discriminate|].
  apply orb_false_iff in Eskip as [Ec _]. unfold truthy in Ec.
  apply negb_false_iff, Z.eqb_eq in Ec.
  destruct (parse_reminder py_int (reminder_time t)) as [[h m]|] eqn:Ep; [|discriminate].
  destruct ((0 <=? h) && (h <=? 23) && (0 <=? m) && (m <=? 59)) eqn:Er; [|discriminate].
  destruct (run_time_after h m now_us) eqn:Ea; [|discriminate].
  injection Et as Ek Ej'. subst k j'. cbn [job_hour job_minute].
  apply andb_prop in Er as [Er E4]. apply andb_prop in Er as [Er E3].
  apply andb_prop in Er as [E1 E2]. apply Z.leb_le in E1, E2, E3, E4.
  repeat split; try reflexivity; try assumption; lia.
Qed.







End SchedulerFacts.

(** * Witnesses of the further properties *)

Section ExtraWitnesses.

Local Ltac store_ok_tac :=
  unfold store_ok; cbn;
  repeat (apply Forall_cons; [unfold user_ok; cbn; lia|]); apply Forall_nil.


Lemma task_done_store_ok_witness :
  store_ok (ex_level 50) /\
  store_ok (ok_store (task_done (ex_level 50) 1 1 "now")).
Proof.
  assert (H0 : store_ok (ex_level 50)) by store_ok_tac.
  split; [exact H0|].
  exact (task_done_store_ok (ex_level 50) _ 1 1 "now"
           (ok_out (task_done (ex_level 50) 1 1 "now")) H0 ltac:(vm_compute; reflexivity)).
Defined.

Lemma shop_buy_store_ok_witness :
  store_ok ex_reward /\ store_ok (ok_store (shop_buy ex_reward 1 "shield")).
Proof.
  assert (H0 : store_ok ex_reward) by store_ok_tac.
  split; [exact H0|].
  exact (shop_buy_store_ok ex_reward _ 1 "shield"
           (ok_out (shop_buy ex_reward 1 "shield")) H0 ltac:(vm_compute; reflexivity)).
Defined.

Lemma shop_buy_unknown_item_witness :
  "hat"%string <> "shield"%string /\ "hat"%string <> "pepper"%string /\
  get_user ex_reward 1 = Some (user0 1 1 0 100 60 0 0 0) /\
  shop_buy ex_reward 1 "hat" = Ok ex_reward [Answer A_Bought].
Proof.
  split; [discriminate|]. split; [discriminate|]. split; [reflexivity|].
  exact (shop_buy_unknown_item ex_reward 1 "hat" (user0 1 1 0 100 60 0 0 0)
           ltac:(discriminate) ltac:(discriminate) ltac:(reflexivity) ltac:(cbn; lia)).
Defined.

Lemma reward_claim_store_ok_witness :
  store_ok ex_reward /\ store_ok (ok_store (reward_claim ex_reward 1 1 sunday "now")).
Proof.
  assert (H0 : store_ok ex_reward) by store_ok_tac.
  split; [exact H0|].
  exact (reward_claim_store_ok ex_reward _ 1 1 sunday "now"
           (ok_out (reward_claim ex_reward 1 1 sunday "now")) H0
           ltac:(vm_compute; reflexivity)).
Defined.

Lemma reward_claim_twice_witness :
  get_reward ex_rich 1 = Some reward1 /\ can_claim ex_rich 1 sunday = true /\
  exists s1 s2,
    reward_claim ex_rich 1 1 sunday "a"
      = Ok s1 [Send 1 (N_RewardClaimed 1 40); Answer A_RewardReceived] /\
    reward_claim s1 1 1 sunday "b"
      = Ok s2 [Send 1 (N_RewardClaimed 1 40); Answer A_RewardReceived] /\
    option_map points (get_user s2 1) = Some 20.
Proof.
  split; [reflexivity|]. split; [vm_compute; reflexivity|].
  exact (reward_claim_twice ex_rich 1 1 sunday "a" "b" reward1 (user0 1 1 0 100 100 0 0 0)
           ltac:(reflexivity) ltac:(vm_compute; reflexivity) ltac:(reflexivity)
           ltac:(cbn; lia) ltac:(cbn; lia)).
Defined.

Lemma evening_store_ok_witness :
  store_ok ex_mixed /\ store_ok (ok_store (process_evening ex_mixed 1 sunday)).
Proof.
  assert (H0 : store_ok ex_mixed) by store_ok_tac.
  split; [exact H0|].
  exact (evening_store_ok ex_mixed _ 1 sunday
           (ok_out (process_evening ex_mixed 1 sunday)) H0 ltac:(vm_compute; reflexivity)).
Defined.

Lemma evening_never_raises_witness :
  get_user (ok_store (process_evening ex_mixed 1 sunday)) 1
    = Some (user0 1 1 0 90 27 0 0 0) /\
  90 <= 100 /\ 27 <= 30.
Proof.
  split; [vm_compute; reflexivity|].
  exact (evening_never_raises ex_mixed (ok_store (process_evening ex_mixed 1 sunday)) 1 sunday
           (ok_out (process_evening ex_mixed 1 sunday))
           (user0 1 1 0 100 30 0 1 2) (user0 1 1 0 90 27 0 0 0)
           ltac:(reflexivity) ltac:(cbn; lia) ltac:(cbn; lia)
           ltac:(vm_compute; reflexivity) ltac:(vm_compute; reflexivity)).
Defined.

Lemma evening_frame_witness :
  process_evening ex_mixed 1 sunday
    = Ok (ok_store (process_evening ex_mixed 1 sunday))
         (ok_out (process_evening ex_mixed 1 sunday)) /\
  rewards (ok_store (process_evening ex_mixed 1 sunday)) = rewards ex_mixed.
Proof.
  assert (H : process_evening ex_mixed 1 sunday
              = Ok (ok_store (process_evening ex_mixed 1 sunday))
                   (ok_out (process_evening ex_mixed 1 sunday)))
    by (vm_compute; reflexivity).
  split; [exact H|].
  exact (proj1 (proj2 (evening_frame ex_mixed _ 1 sunday _ H))).
Defined.

Lemma evening_nothing_to_settle_witness :
  get_tasks_by_date ex_mixed 1 (sunday - 1) = [] /\
  process_evening ex_mixed 1 (sunday - 1) = Ok ex_mixed [].
Proof.
  split; [reflexivity|].
  exact (evening_nothing_to_settle ex_mixed 1 (sunday - 1) (or_introl eq_refl)).
Defined.

Lemma create_user_store_ok_witness :
  store_ok ex_mixed /\ store_ok (create_user ex_mixed 2).
Proof.
  assert (H0 : store_ok ex_mixed) by store_ok_tac.
  split; [exact H0|]. exact (create_user_store_ok ex_mixed 2 H0).
Defined.

Lemma add_task_lookup_witness :
  (forall t, In t (tasks ex_mixed) -> task_id t < 3) /\
  get_task (add_task ex_mixed 3 1 "n" "focus" None sunday) 3
    = Some (new_task 3 1 "n" "focus" None sunday).
Proof.
  assert (H : forall t, In t (tasks ex_mixed) -> task_id t < 3).
  { intros t Ht. cbn in Ht. destruct Ht as [<-|[<-|[]]]; cbn; lia. }
  split; [exact H|].
  exact (proj1 (add_task_lookup ex_mixed 3 1 "n" "focus" None sunday H)).
Defined.

Lemma task_done_then_no_reminder_witness :
  send_reminder (ok_store (task_done (ex_level 50) 1 1 "now")) 1 1
    = Ok (ok_store (task_done (ex_level 50) 1 1 "now")) [].
Proof.
  exact (task_done_then_no_reminder (ex_level 50) _ 1 1 1 "now"
           (ok_out (task_done (ex_level 50) 1 1 "now")) ltac:(vm_compute; reflexivity)).
Defined.

Lemma reward_claim_unlists_witness :
  In (Answer A_RewardReceived) (ok_out (reward_claim ex_reward 1 1 sunday "now")) /\
  forall r, In r (get_rewards (ok_store (reward_claim ex_reward 1 1 sunday "now")) 1) ->
            reward_id r <> 1.
Proof.
  assert (Hin : In (Answer A_RewardReceived)
                   (ok_out (reward_claim ex_reward 1 1 sunday "now")))
    by (vm_compute; right; left; reflexivity).
  split; [exact Hin|].
  exact (reward_claim_unlists ex_reward _ 1 1 1 sunday "now" _
           ltac:(vm_compute; reflexivity) Hin).
Defined.

Lemma idea_status_cycle_witness :
  get_idea ex_ideas 1 = Some (mk_idea 1 1 1 "i1" "new") /\
  get_idea (idea_cycle_status (idea_cycle_status (idea_cycle_status ex_ideas 1) 1) 1) 1
    = Some (mk_idea 1 1 1 "i1" "new").
Proof.
  split; [reflexivity|].
  exact (proj2 (idea_status_cycle ex_ideas 1 (mk_idea 1 1 1 "i1" "new") eq_refl)
           ltac:(left; reflexivity)).
Defined.

Lemma cat_delete_cascade_witness :
  get_category ex_ideas 1 = Some (mk_category 1 1 "c1" "e") /\
  count_ideas_in_category (cat_delete ex_ideas 1) 1 = 0 /\
  get_ideas_by_category (cat_delete ex_ideas 1) 2 = get_ideas_by_category ex_ideas 2.
Proof.
  split; [reflexivity|].
  destruct (cat_delete_cascade ex_ideas 1 (mk_category 1 1 "c1" "e") eq_refl)
    as [_ [Hc Hother]].
  split; [exact Hc|]. exact (proj2 (Hother 2 ltac:(lia))).
Defined.

Lemma parse_time_canonical_witness :
  parse_time "9:05" = Some (9, 5) /\ parse_time (rem_str 9 5) = Some (9, 5).
Proof.
  split; [vm_compute; reflexivity|].
  exact (proj2 (proj2 (parse_time_canonical "9:05" 9 5 ltac:(vm_compute; reflexivity)))).
Defined.

Lemma restore_reminders_idempotent_witness :
  restore_reminders int_two_digits ex_reminders [1] sunday (8 * 3600 * 1000000) []
    = Some [(1, mk_job 1 1 9 30)] /\
  exists js2,
    restore_reminders int_two_digits ex_reminders [1] sunday (8 * 3600 * 1000000)
      [(1, mk_job 1 1 9 30)] = Some js2 /\
    forall k, lookup_job js2 k = lookup_job [(1, mk_job 1 1 9 30)] k.
Proof.
  assert (H : restore_reminders int_two_digits ex_reminders [1] sunday (8 * 3600 * 1000000) []
              = Some [(1, mk_job 1 1 9 30)]) by (vm_compute; reflexivity).
  split; [exact H|].
  exact (restore_reminders_idempotent int_two_digits ex_reminders [1] sunday
           (8 * 3600 * 1000000) [] _ H).
Defined.

Lemma restore_reminders_sound_witness :
  restore_reminders int_two_digits ex_reminders [1] sunday (8 * 3600 * 1000000) []
    = Some [(1, mk_job 1 1 9 30)] /\
  lookup_job [(1, mk_job 1 1 9 30)] 1 = Some (mk_job 1 1 9 30) /\
  exists uid t,
    In uid [1] /\ In t (get_tasks_by_date ex_reminders uid sunday) /\ task_id t = 1 /\
    completed t = 0 /\ parse_reminder int_two_digits (reminder_time t) = Some (9, 30).
Proof.
  assert (H : restore_reminders int_two_digits ex_reminders [1] sunday (8 * 3600 * 1000000) []
              = Some [(1, mk_job 1 1 9 30)]) by (vm_compute; reflexivity).
  split; [exact H|]. split; [reflexivity|].
  destruct (restore_reminders_sound int_two_digits ex_reminders [1] sunday
              (8 * 3600 * 1000000) _ 1 (mk_job 1 1 9 30) H eq_refl)
    as (uid & t & Hu & Ht & Hk & Hc & _ & Hp & _).
  exists uid, t. repeat (split; [assumption|]). exact Hp.
Defined.


End ExtraWitnesses.
